(** * A shallow embedding of [s28042_2025-2.py]

    The script asks the NCBI Entrez service for the nucleotide records of a
    taxonomic identifier, keeps the records whose sequence length lies in an
    optional inclusive range, and writes a CSV table, a chart and the raw
    fetched text.

    The embedding follows the script function by function.  Python objects
    that are mutated or shared (lists, the retriever instance) live in an
    explicit store; printing, reading the keyboard, remote calls and file
    writes are recorded in the program state; exceptions are results of a
    small state-and-error monad, so that [try ... except Exception] can be
    written as it is in the source. *)

From Stdlib Require Import ZArith Lia Ascii String.
From stdpp Require Import base strings gmap list sorting pretty.

Open Scope Z_scope.

(** ** Python values *)

(** A parsed GenBank entry, as far as the script reads it: [record.id],
    [record.seq] (only its [len] is used) and [record.description]. *)
Module SeqRecord.
Record t := mk { id : string; seq : string; description : string }.
End SeqRecord.

(** [len(record.seq)], a Python [int]. *)
Definition len_seq (r : SeqRecord.t) : Z :=
  Z.of_nat (String.length (SeqRecord.seq r)).

(** List objects are addressed by their position in the store. *)
Definition loc := nat.

Inductive val :=
| VNone
| VInt (n : Z)
| VStr (s : string)
| VRecord (r : SeqRecord.t)
| VRef (l : loc).

Inductive pytype := TyNoneType | TyInt | TyStr | TySeqRecord | TyList.

(** [type(v)]; a reference always points to a list object here. *)
Definition type_of (v : val) : pytype :=
  match v with
  | VNone => TyNoneType
  | VInt _ => TyInt
  | VStr _ => TyStr
  | VRecord _ => TySeqRecord
  | VRef _ => TyList
  end.

(** The subclasses of [Exception] that the script can meet.  What the
    external libraries raise (urllib errors, Entrez and GenBank parser
    errors) is [LibraryError]. *)
Inductive exn :=
| IndexError (msg : string)
| KeyError (key : string)
| ValueError (msg : string)
| TypeError (msg : string)
| AttributeError (msg : string)
| EOFError (msg : string)
| LibraryError (cls msg : string).

(** The digit of a hexadecimal escape. *)
Definition hex_digit (n : N) : ascii :=
  if (n <? 10)%N then ascii_of_N (48 + n) else ascii_of_N (87 + n).

(** One character inside [repr(s)], given the quote that encloses it. *)
Definition repr_char (quote c : ascii) : list ascii :=
  let n := N_of_ascii c in
  let backslash := "092"%char in
  if Ascii.eqb c backslash then [backslash; backslash]
  else if Ascii.eqb c quote then [backslash; quote]
  else if (n =? 9)%N then [backslash; "t"%char]
  else if (n =? 10)%N then [backslash; "n"%char]
  else if (n =? 13)%N then [backslash; "r"%char]
  else if (n <? 32)%N || (n =? 127)%N
          || ((128 <=? n)%N && (n <=? 160)%N) || (n =? 173)%N
       then [backslash; "x"%char; hex_digit (n / 16); hex_digit (n mod 16)]
  else [c].

(** [repr(s)] for a string of code points below 256: double quotes when
    the text holds a single quote and no double quote, single quotes
    otherwise; the backslash, the enclosing quote and the characters that
    are not printable are escaped. *)
Definition py_repr (s : string) : string :=
  let chars := list_ascii_of_string s in
  let single := "039"%char in
  let double := "034"%char in
  let quote :=
    if existsb (Ascii.eqb single) chars && negb (existsb (Ascii.eqb double) chars)
    then double else single in
  string_of_list_ascii ([quote] ++ concat (repr_char quote <$> chars) ++ [quote]).

(** [str(e)], as interpolated by [f"... {e}"]. *)
Definition str_exn (e : exn) : string :=
  match e with
  | KeyError k => py_repr k
  | IndexError m | ValueError m | TypeError m | AttributeError m
  | EOFError m | LibraryError _ m => m
  end.

Inductive Result (A : Type) :=
| Ok (a : A)
| Raise (e : exn).
Arguments Ok {A} a.
Arguments Raise {A} e.

(** ** Strings, and the builtins that look inside them *)

(** Most strings of the program are only stored, compared, joined and
    printed: they are values of [string], read as sequences of code points
    below 256.  A line typed at the keyboard is examined character by
    character by [str.strip] and [int], which know the white space and the
    decimal digits of every script: such a line is the list of its code
    points. *)
Definition pystr := list N.

(** The code points of a string. *)
Definition codepoints (s : string) : pystr :=
  N_of_ascii <$> list_ascii_of_string s.

Module Py.

(** Membership in a list of closed ranges of code points. *)
Definition in_ranges (ranges : list (N * N)) (c : N) : bool :=
  existsb (λ r, (r.1 <=? c)%N && (c <=? r.2)%N) ranges.

(** The white space of [str.isspace] and [str.strip]: tab to carriage
    return, the separators 0x1C to 0x1F, the blank, and the white space
    beyond ASCII. *)
Definition space_ranges : list (N * N) :=
  [(0x9, 0xD); (0x1C, 0x20); (0x85, 0x85); (0xA0, 0xA0); (0x1680, 0x1680);
   (0x2000, 0x200A); (0x2028, 0x2029); (0x202F, 0x202F); (0x205F, 0x205F);
   (0x3000, 0x3000)]%N.

(** The white space [int] skips around a literal: the white space of C
    below 127 (not the separators 0x1C to 0x1F), and every white space of
    [str.isspace] from there on. *)
Definition int_space_ranges : list (N * N) :=
  [(0x9, 0xD); (0x20, 0x20); (0x85, 0x85); (0xA0, 0xA0); (0x1680, 0x1680);
   (0x2000, 0x200A); (0x2028, 0x2029); (0x202F, 0x202F); (0x205F, 0x205F);
   (0x3000, 0x3000)]%N.

(** The decimal digits (Unicode 14.0, the character database of CPython
    3.11): in every range the digits 0 to 9 follow each other, the long
    range of mathematical digits holding them five times. *)
Definition decimal_ranges : list (N * N) :=
  [(0x30, 0x39); (0x660, 0x669); (0x6F0, 0x6F9); (0x7C0, 0x7C9);
   (0x966, 0x96F); (0x9E6, 0x9EF); (0xA66, 0xA6F); (0xAE6, 0xAEF);
   (0xB66, 0xB6F); (0xBE6, 0xBEF); (0xC66, 0xC6F); (0xCE6, 0xCEF);
   (0xD66, 0xD6F); (0xDE6, 0xDEF); (0xE50, 0xE59); (0xED0, 0xED9);
   (0xF20, 0xF29); (0x1040, 0x1049); (0x1090, 0x1099); (0x17E0, 0x17E9);
   (0x1810, 0x1819); (0x1946, 0x194F); (0x19D0, 0x19D9); (0x1A80, 0x1A89);
   (0x1A90, 0x1A99); (0x1B50, 0x1B59); (0x1BB0, 0x1BB9); (0x1C40, 0x1C49);
   (0x1C50, 0x1C59); (0xA620, 0xA629); (0xA8D0, 0xA8D9); (0xA900, 0xA909);
   (0xA9D0, 0xA9D9); (0xA9F0, 0xA9F9); (0xAA50, 0xAA59); (0xABF0, 0xABF9);
   (0xFF10, 0xFF19); (0x104A0, 0x104A9); (0x10D30, 0x10D39);
   (0x11066, 0x1106F); (0x110F0, 0x110F9); (0x11136, 0x1113F);
   (0x111D0, 0x111D9); (0x112F0, 0x112F9); (0x11450, 0x11459);
   (0x114D0, 0x114D9); (0x11650, 0x11659); (0x116C0, 0x116C9);
   (0x11730, 0x11739); (0x118E0, 0x118E9); (0x11950, 0x11959);
   (0x11C50, 0x11C59); (0x11D50, 0x11D59); (0x11DA0, 0x11DA9);
   (0x16A60, 0x16A69); (0x16AC0, 0x16AC9); (0x16B50, 0x16B59);
   (0x1D7CE, 0x1D7FF); (0x1E140, 0x1E149); (0x1E2F0, 0x1E2F9);
   (0x1E950, 0x1E959); (0x1FBF0, 0x1FBF9)]%N.

Definition isspace (c : N) : bool := in_ranges space_ranges c.

Definition int_space (c : N) : bool := in_ranges int_space_ranges c.

Fixpoint decimal_in (ranges : list (N * N)) (c : N) : option Z :=
  match ranges with
  | [] => None
  | r :: ranges' =>
      if (r.1 <=? c)%N && (c <=? r.2)%N then Some (Z.of_N ((c - r.1) mod 10))
      else decimal_in ranges' c
  end.

(** The value of a decimal digit. *)
Definition decimal (c : N) : option Z := decimal_in decimal_ranges c.

Fixpoint lstrip (l : pystr) : pystr :=
  match l with
  | c :: l' => if isspace c then lstrip l' else l
  | [] => []
  end.

(** [s.strip()] *)
Definition strip (s : pystr) : pystr := rev (lstrip (rev (lstrip s))).

(** The two ways [int] refuses a string; both are a [ValueError]. *)
Inductive int_error := InvalidLiteral | TooManyDigits (digits : nat).

(** [sys.get_int_max_str_digits()], by default. *)
Definition max_str_digits : nat := 4300.

(** The run of digits and underscores at the head of [l]: its value, the
    number of its digits and what follows it.  Two underscores in a row, or
    one at the end of the run, are refused. *)
Fixpoint scan (acc : Z) (digits : nat) (after_underscore : bool) (l : pystr)
  : option (Z * nat * pystr) :=
  match l with
  | c :: l' =>
      if (c =? 95)%N then
        if after_underscore then None else scan acc digits true l'
      else
        match decimal c with
        | Some d => scan (10 * acc + d) (S digits) false l'
        | None => if after_underscore then None else Some (acc, digits, l)
        end
  | [] => if after_underscore then None else Some (acc, digits, l)
  end.

Fixpoint skip_space (l : pystr) : pystr :=
  match l with
  | c :: l' => if int_space c then skip_space l' else l
  | [] => []
  end.

(** One sign, plus or minus, in front of the digits. *)
Definition sign (l : pystr) : bool * pystr :=
  match l with
  | c :: l' =>
      if (c =? 43)%N then (false, l')
      else if (c =? 45)%N then (true, l')
      else (false, l)
  | [] => (false, [])
  end.

(** The digits after the sign: no underscore in front, in a row or at the
    end; at most [max_str_digits] digits and at least one; then only white
    space. *)
Definition magnitude (l : pystr) : Z + int_error :=
  match l with
  | 95%N :: _ => inr InvalidLiteral
  | _ =>
      match scan 0 0 false l with
      | None => inr InvalidLiteral
      | Some (n, digits, rest) =>
          if (max_str_digits <? digits)%nat then inr (TooManyDigits digits)
          else if (digits =? 0)%nat then inr InvalidLiteral
          else if forallb int_space rest then inl n
          else inr InvalidLiteral
      end
  end.

(** What [int(s)] makes of the code points of [s], in base ten. *)
Definition int_literal (s : pystr) : Z + int_error :=
  let '(negative, l) := sign (skip_space s) in
  match magnitude l with
  | inl n => inl (if negative then - n else n)
  | inr e => inr e
  end.

(** [int(s)] for a string of the program, with the text of the error. *)
Definition int (s : string) : Result Z :=
  match int_literal (codepoints s) with
  | inl n => Ok n
  | inr InvalidLiteral =>
      Raise (ValueError ("invalid literal for int() with base 10: " +:+ py_repr s))
  | inr (TooManyDigits digits) =>
      Raise (ValueError
               ("Exceeds the limit (4300 digits) for integer string conversion: value has "
                +:+ pretty digits
                +:+ " digits; use sys.set_int_max_str_digits() to increase the limit"))
  end.

(** [min(a, b)] on integers. *)
Definition min (a b : Z) : Z := if b <? a then b else a.

(** Insertion of [x] in front of the first element whose key is not
    smaller. *)
Fixpoint insert_by {A} (key : A → Z) (x : A) (l : list A) : list A :=
  match l with
  | [] => [x]
  | y :: l' => if key x <=? key y then x :: y :: l' else y :: insert_by key x l'
  end.

(** [sorted(l, key=key)]: ascending by key, and stable by the language
    definition.  A stable sort has one possible result (see
    [sorted_unique] below), so the insertion sort written here denotes the
    same function as the interpreter's sort. *)
Fixpoint sorted {A} (key : A → Z) (l : list A) : list A :=
  match l with
  | [] => []
  | x :: l' => insert_by key x (sorted key l')
  end.

End Py.

(** ** Remote service, files and the program state *)

(** The remote calls the script makes, with the arguments it chooses. *)
Inductive Request :=
| EfetchTaxonomy (taxid : string)
| EsearchNucleotide (term : string)
| EfetchNucleotide (retstart retmax : Z) (webenv query_key : val).

(** The answers of the outside world.  Every call either raises or returns
    the parsed answer: [Entrez.read] gives dictionaries with string keys,
    [handle.read()] gives text.  [SeqIO_parse] is the GenBank parser: the
    entries it yields, and the exception that ends the iteration if the text
    is malformed. *)
Record Service := mkService {
  efetch_taxonomy : string → Result (list (gmap string string));
  esearch_nucleotide : string → Result (gmap string string);
  efetch_nucleotide : Z → Z → val → val → Result string;
  SeqIO_parse : string → list SeqRecord.t * option exn
}.

(** A [pandas.DataFrame] built from a dictionary of equally long lists:
    the columns in insertion order, and the default index [0 .. n-1]. *)
Record DataFrame := mkDataFrame {
  df_columns : list (string * list val);
  df_index : list Z
}.

(** What [ax.plot(x, y, marker=...)] and the axis labels put on a figure. *)
Record Figure := mkFigure {
  fig_x : list val;
  fig_y : list val;
  fig_marker : string;
  fig_xlabel : string;
  fig_ylabel : string
}.

(** A file that was written: what pandas makes of a frame (see
    [csv_lines] below), a saved figure, or plain text. *)
Inductive File :=
| CsvFile (path : string) (df : DataFrame)
| PngFile (path : string) (fig : Figure)
| TextFile (path : string) (content : string).

Record World := mkWorld {
  heap : list (list val);          (* the list objects allocated so far *)
  self_dict : gmap string val;     (* attributes of the retriever instance *)
  stdin : list pystr;              (* lines still to be typed *)
  stdout : list string;            (* one entry per [print] or prompt *)
  requests : list Request;         (* remote calls made, oldest first *)
  files : list File                (* files written, oldest first *)
}.

Definition set_heap (h : list (list val)) (w : World) : World :=
  mkWorld h (self_dict w) (stdin w) (stdout w) (requests w) (files w).
Definition set_self_dict (d : gmap string val) (w : World) : World :=
  mkWorld (heap w) d (stdin w) (stdout w) (requests w) (files w).
Definition set_stdin (i : list pystr) (w : World) : World :=
  mkWorld (heap w) (self_dict w) i (stdout w) (requests w) (files w).
Definition set_stdout (o : list string) (w : World) : World :=
  mkWorld (heap w) (self_dict w) (stdin w) o (requests w) (files w).
Definition set_requests (r : list Request) (w : World) : World :=
  mkWorld (heap w) (self_dict w) (stdin w) (stdout w) r (files w).
Definition set_files (f : list File) (w : World) : World :=
  mkWorld (heap w) (self_dict w) (stdin w) (stdout w) (requests w) f.

(** ** The monad: state passing with exceptions *)

Definition M (A : Type) : Type := World → Result A * World.

Global Instance M_ret : MRet M := λ A a w, (Ok a, w).

Global Instance M_bind : MBind M := λ A B f m w,
  match m w with
  | (Ok a, w') => f a w'
  | (Raise e, w') => (Raise e, w')
  end.

Definition raise {A} (e : exn) : M A := λ w, (Raise e, w).

(** [try: body / except Exception as e: handler e].  What [body] did to the
    state before it raised stays done. *)
Definition try_except {A} (body : M A) (handler : exn → M A) : M A := λ w,
  match body w with
  | (Ok a, w') => (Ok a, w')
  | (Raise e, w') => handler e w'
  end.

(** Lifts a result computed outside the state. *)
Definition lift {A} (r : Result A) : M A := λ w, (r, w).

Definition print (s : string) : M unit := λ w,
  (Ok tt, set_stdout (stdout w ++ [s]) w).

(** [input(prompt)]: shows the prompt and returns the next line typed. *)
Definition input (prompt : string) : M pystr := λ w,
  let w' := set_stdout (stdout w ++ [prompt]) w in
  match stdin w with
  | line :: rest => (Ok line, set_stdin rest w')
  | [] => (Raise (EOFError "EOF when reading a line"), w')
  end.

(** A new list object with the given items. *)
Definition new_list (xs : list val) : M loc := λ w,
  (Ok (length (heap w)), set_heap (heap w ++ [xs]) w).

(** [l.append(v)] *)
Definition list_append (l : loc) (v : val) : M unit := λ w,
  match heap w !! l with
  | Some xs => (Ok tt, set_heap (<[l := xs ++ [v]]> (heap w)) w)
  | None => (Raise (AttributeError "object has no attribute 'append'"), w)
  end.

(** The items of a list object, as an iteration over it sees them. *)
Definition list_items (l : loc) : M (list val) := λ w,
  match heap w !! l with
  | Some xs => (Ok xs, w)
  | None => (Raise (TypeError "object is not iterable"), w)
  end.

(** [hasattr(self, name)], [self.name = v] and [self.name]. *)
Definition hasattr (name : string) : M bool := λ w,
  (Ok (bool_decide (is_Some (self_dict w !! name))), w).

Definition setattr (name : string) (v : val) : M unit := λ w,
  (Ok tt, set_self_dict (<[name := v]> (self_dict w)) w).

Definition getattr (name : string) : M val := λ w,
  match self_dict w !! name with
  | Some v => (Ok v, w)
  | None =>
      (Raise (AttributeError
                ("'NCBIRetriever' object has no attribute " +:+ py_repr name)), w)
  end.

(** A remote call: it is recorded, then it answers or raises. *)
Definition remote {A} (req : Request) (answer : Result A) : M A := λ w,
  (answer, set_requests (requests w ++ [req]) w).

(** Writing a file.  The file system is taken to accept every write: the
    model follows the runs in which no write fails. *)
Definition write_file (f : File) : M unit := λ w,
  (Ok tt, set_files (files w ++ [f]) w).

(** [for x in xs: body x] *)
Fixpoint for_each {A} (xs : list A) (body : A → M unit) : M unit :=
  match xs with
  | [] => mret tt
  | x :: xs' => body x ;; for_each xs' body
  end.

(** Iteration over a generator that may raise after its last item. *)
Definition for_each_yielded {A} (g : list A * option exn) (body : A → M unit)
  : M unit :=
  for_each g.1 body ;;
  match g.2 with
  | Some e => raise e
  | None => mret tt
  end.

(** [d[key]] on a dictionary returned by [Entrez.read]. *)
Definition getitem (d : gmap string string) (key : string) : M string :=
  match d !! key with
  | Some v => mret v
  | None => raise (KeyError key)
  end.

(** [records[0]] *)
Definition first_item {A} (l : list A) : M A :=
  match l with
  | x :: _ => mret x
  | [] => raise (IndexError "list index out of range")
  end.

(** Attribute access on a list item that should be a parsed record. *)
Definition as_record (v : val) : M SeqRecord.t :=
  match v with
  | VRecord r => mret r
  | _ => raise (AttributeError "object has no attribute 'seq'")
  end.

(** [io.StringIO(v)] accepts a string (or [None]). *)
Definition StringIO (v : val) : M string :=
  match v with
  | VStr s => mret s
  | VNone => mret ""
  | _ => raise (TypeError "initial_value must be str or None")
  end.

(** [with open(path, "w") as f: f.write(v)]: the file is created empty, then
    the text is written if [v] is a string. *)
Definition open_w_write (path : string) (v : val) : M unit :=
  match v with
  | VStr s => write_file (TextFile path s)
  | _ =>
      write_file (TextFile path "") ;;
      raise (TypeError "write() argument must be str")
  end.

(** [pd.DataFrame({name: list, ...})]: the items of every list are copied
    into a column; lists of different lengths are refused. *)
Definition pd_DataFrame (data : list (string * loc)) : M DataFrame :=
  cols ← mapM (λ c, xs ← list_items c.2; mret (c.1, xs)) data;
  match cols with
  | [] => mret (mkDataFrame [] [])
  | c :: _ =>
      if forallb (λ c', (length c'.2 =? length c.2)%nat) cols then
        mret (mkDataFrame cols (Z.of_nat <$> seq 0 (length c.2)))
      else raise (ValueError "All arrays must be of the same length")
  end.

(** [df.to_csv(path)], with the defaults [header=True] and [index=True]. *)
Definition to_csv (df : DataFrame) (path : string) : M unit :=
  write_file (CsvFile path df).

(** The lines of the file [to_csv] writes for a frame, each a list of
    fields.  The header line has an empty first field, above the index, then
    the names of the columns; every other line has the index label of its
    row, then the cells of the row.  A field is given as the value it is
    written from. *)
Definition csv_header (df : DataFrame) : list val :=
  VStr "" :: (VStr <$> (df_columns df).*1).

Definition csv_row (df : DataFrame) (i : nat) (label : Z) : list val :=
  VInt label :: ((λ c, default VNone (c.2 !! i)) <$> df_columns df).

Definition csv_lines (df : DataFrame) : list (list val) :=
  csv_header df :: imap (csv_row df) (df_index df).

(** [ax.plot(x, y, marker=marker)] *)
Definition ax_plot (x y : loc) (marker : string) : M (list val * list val) :=
  xs ← list_items x;
  ys ← list_items y;
  if (length xs =? length ys)%nat then mret (xs, ys)
  else raise (ValueError "x and y must have same first dimension").

(** ** class NCBIRetriever *)

(** [__init__]: the credentials are kept on the instance.  (They are also
    copied to the settings of the Entrez module, which only the library
    reads.) *)
Definition NCBIRetriever_init (email api_key : string) : M unit :=
  setattr "email" (VStr email) ;;
  setattr "api_key" (VStr api_key).

Definition search_taxid (sv : Service) (taxid : string) : M (option Z) :=
  print ("Searching for records with taxID: " +:+ taxid) ;;
  try_except
    (records ← remote (EfetchTaxonomy taxid) (efetch_taxonomy sv taxid);
     record0 ← first_item records;
     organism_name ← getitem record0 "ScientificName";
     print ("Organism: " +:+ organism_name +:+ " (TaxID: " +:+ taxid +:+ ")") ;;
     let search_term := "txid" +:+ taxid +:+ "[Organism]" in
     search_results ←
       remote (EsearchNucleotide search_term) (esearch_nucleotide sv search_term);
     c ← getitem search_results "Count";
     count ← lift (Py.int c);
     if count =? 0 then
       print ("No records found for " +:+ organism_name) ;;
       mret None
     else
       print ("Found " +:+ pretty count +:+ " records") ;;
       webenv ← getitem search_results "WebEnv";
       setattr "webenv" (VStr webenv) ;;
       query_key ← getitem search_results "QueryKey";
       setattr "query_key" (VStr query_key) ;;
       setattr "count" (VInt count) ;;
       mret (Some count))
    (λ e,
       print ("Error searching TaxID " +:+ taxid +:+ ": " +:+ str_exn e) ;;
       mret None).

Definition fetch_records (sv : Service) (start max_records : Z) : M val :=
  has_webenv ← hasattr "webenv";
  has_query_key ← hasattr "query_key";
  if negb has_webenv || negb has_query_key then
    print "No search results to fetch. Run search_taxid() first." ;;
    l ← new_list [];
    mret (VRef l)
  else
    try_except
      (let batch_size := Py.min max_records 500 in
       webenv ← getattr "webenv";
       query_key ← getattr "query_key";
       records_text ←
         remote (EfetchNucleotide start batch_size webenv query_key)
                (efetch_nucleotide sv start batch_size webenv query_key);
       mret (VStr records_text))
      (λ e,
         print ("Error fetching records: " +:+ str_exn e) ;;
         mret (VStr "")).

(** ** Report generators *)

Definition generate_csv (records : loc) (taxid : string) : M unit :=
  accession_numbers ← new_list [];
  seq_lengths ← new_list [];
  descriptions ← new_list [];
  items ← list_items records;
  for_each items (λ item,
    record ← as_record item;
    list_append accession_numbers (VStr (SeqRecord.id record)) ;;
    list_append seq_lengths (VInt (len_seq record)) ;;
    list_append descriptions (VRef descriptions)) ;;
  df ← pd_DataFrame [("accession number", accession_numbers);
                     ("sequence length", seq_lengths);
                     ("description", descriptions)];
  let path := "taxid_" +:+ taxid +:+ "_attributes.csv" in
  to_csv df path ;;
  print ("Saved csv report to " +:+ path +:+ ".").

Definition generate_chart (records : loc) (taxid : string) : M unit :=
  items ← list_items records;
  copy ← new_list items;                                  (* list(records) *)
  copied ← list_items copy;
  keyed ← mapM as_record copied;                          (* key=len(r.seq) *)
  records ← new_list (VRecord <$> Py.sorted len_seq keyed);
  accession_numbers ← new_list [];
  seq_lengths ← new_list [];
  items ← list_items records;
  for_each items (λ item,
    record ← as_record item;
    list_append accession_numbers (VStr (SeqRecord.id record)) ;;
    list_append seq_lengths (VInt (len_seq record))) ;;
  xy ← ax_plot accession_numbers seq_lengths "o";
  let fig := mkFigure xy.1 xy.2 "o" "Accession number" "Seq length" in
  let path := "taxid_" +:+ taxid +:+ "_chart.png" in
  write_file (PngFile path fig) ;;                        (* plt.savefig *)
  print ("Saved chart to " +:+ path +:+ ".").

(** ** main *)

(** [try: int(s) / except ValueError: None] *)
Definition int_or_None (s : pystr) : option Z :=
  match Py.int_literal s with
  | inl n => Some n
  | inr _ => None
  end.

(** [min_len is not None and len(record.seq) < min_len] *)
Definition below_min (min_len : option Z) (r : SeqRecord.t) : bool :=
  match min_len with
  | Some m => len_seq r <? m
  | None => false
  end.

(** [max_len is not None and len(record.seq) > max_len] *)
Definition above_max (max_len : option Z) (r : SeqRecord.t) : bool :=
  match max_len with
  | Some m => len_seq r >? m
  | None => false
  end.

(** The filtering loop of [main]. *)
Definition filter_records (min_len max_len : option Z) (filtered_records : loc)
    (records : list SeqRecord.t * option exn) : M unit :=
  for_each_yielded records (λ record,
    if below_min min_len record then mret tt              (* continue *)
    else if above_max max_len record then mret tt         (* continue *)
    else list_append filtered_records (VRecord record)).

(** The two ways [main] returns: the early [return] after an empty search,
    and the end of the function. *)
Inductive exit := NO_RESULTS | SAVED.

(** [not count] for [None] or an integer. *)
Definition falsy (count : option Z) : bool :=
  match count with
  | None => true
  | Some n => n =? 0
  end.

Definition main (sv : Service) : M exit :=
  let email := "s28042@pjwstk.edu.pl" in
  let api_key := "9c54136959ab49f748460e18577568894f07" in
  NCBIRetriever_init email api_key ;;
  let taxid := "9606" in
  line ← input "Enter minimum sequence length (leave blank for no minimum): ";
  let min_len_input := Py.strip line in
  line ← input "Enter maximum sequence length (leave blank for no maximum): ";
  let max_len_input := Py.strip line in
  let min_len := int_or_None min_len_input in
  let max_len := int_or_None max_len_input in
  count ← search_taxid sv taxid;
  if falsy count then
    print "No records found. Exiting." ;;
    mret NO_RESULTS
  else
    print (String "010" "Fetching sample records...") ;;
    sample_records ← fetch_records sv 0 5;
    sio ← StringIO sample_records;
    let records := SeqIO_parse sv sio in
    filtered_records ← new_list [];
    filter_records min_len max_len filtered_records records ;;
    generate_csv filtered_records taxid ;;
    generate_chart filtered_records taxid ;;
    let output_file := "taxid_" +:+ taxid +:+ "_sample.gb" in
    open_w_write output_file sample_records ;;
    print ("Saved sample records to " +:+ output_file) ;;
    print (String "010" "Note: This is just a basic retriever. You need to extend its functionality!") ;;
    mret SAVED.

(** * Vocabulary of the properties *)

(** ** Tables and charts *)

(** The column of a frame with a given name. *)
Fixpoint column (name : string) (cols : list (string * list val))
  : option (list val) :=
  match cols with
  | [] => None
  | c :: cols' => if decide (c.1 = name) then Some c.2 else column name cols'
  end.

(** The cell of row [i] in the column [name]. *)
Definition df_cell (df : DataFrame) (name : string) (i : nat) : option val :=
  xs ← column name (df_columns df); xs !! i.

(** The file names built by the f-strings of the two generators. *)
Definition csv_path (taxid : string) : string :=
  "taxid_" +:+ taxid +:+ "_attributes.csv".

Definition chart_path (taxid : string) : string :=
  "taxid_" +:+ taxid +:+ "_chart.png".

Definition sample_path : string := "taxid_" +:+ "9606" +:+ "_sample.gb".

(** The frame [generate_csv] builds for the records [rs] when the store
    held [h] lists before the call: its third list is allocated at
    [S (S h)]. *)
Definition csv_frame (h : nat) (rs : list SeqRecord.t) : DataFrame :=
  mkDataFrame
    [("accession number", VStr ∘ SeqRecord.id <$> rs);
     ("sequence length", VInt ∘ len_seq <$> rs);
     ("description", replicate (length rs) (VRef (S (S h))))]
    (Z.of_nat <$> seq 0 (length rs)).

(** The figure [generate_chart] saves for the records [rs]. *)
Definition chart_figure (rs : list SeqRecord.t) : Figure :=
  mkFigure (VStr ∘ SeqRecord.id <$> Py.sorted len_seq rs)
           (VInt ∘ len_seq <$> Py.sorted len_seq rs)
           "o" "Accession number" "Seq length".

(** Ascending order of the keys. *)
Definition key_le {A} (key : A → Z) (x y : A) : Prop := key x ≤ key y.

(** ** The inclusive length range *)

(** The minimum is absent or the length reaches it. *)
Definition at_least (bound : option Z) (n : Z) : Prop :=
  match bound with
  | None => True
  | Some m => m ≤ n
  end.

(** The maximum is absent or the length does not exceed it. *)
Definition at_most (bound : option Z) (n : Z) : Prop :=
  match bound with
  | None => True
  | Some m => n ≤ m
  end.

Definition in_range (min_len max_len : option Z) (r : SeqRecord.t) : Prop :=
  at_least min_len (len_seq r) ∧ at_most max_len (len_seq r).

Global Instance in_range_dec min_len max_len r :
  Decision (in_range min_len max_len r).
Proof. unfold in_range, at_least, at_most. destruct min_len, max_len; apply _. Defined.

(** ** Decimal literals *)

(** A decimal digit, of any script. *)
Definition is_digit (c : N) : Prop := Py.in_ranges Py.decimal_ranges c = true.

(** One or more digits, with single underscores allowed between two
    digits. *)
Inductive digit_groups : pystr → Prop :=
| digit_last c : is_digit c → digit_groups [c]
| digit_next c l : is_digit c → digit_groups l → digit_groups (c :: l)
| digit_sep c l : is_digit c → digit_groups l → digit_groups (c :: 95%N :: l).

(** Digits, with one ASCII sign in front at most. *)
Inductive integer_literal : pystr → Prop :=
| literal_unsigned l : digit_groups l → integer_literal l
| literal_plus l : digit_groups l → integer_literal (43%N :: l)
| literal_minus l : digit_groups l → integer_literal (45%N :: l).

(** The number of digits in a literal. *)
Definition digit_count (l : pystr) : nat :=
  length (List.filter (Py.in_ranges Py.decimal_ranges) l).

Definition spaces (l : pystr) : Prop := Forall (λ c, Py.isspace c = true) l.


(** An integer literal of at most 4300 digits, possibly with white space
    around it. *)
Definition numeric (s : pystr) : Prop :=
  ∃ pre body post,
    s = pre ++ body ++ post
    ∧ spaces pre ∧ spaces post ∧ integer_literal body
    ∧ (digit_count body ≤ Py.max_str_digits)%nat.

(** Two tables of ranges have no code point in common; every range of the
    first lies within a range of the second. *)
Definition ranges_apart (r1 r2 : list (N * N)) : bool :=
  forallb (λ a, forallb (λ b, (a.2 <? b.1)%N || (b.2 <? a.1)%N) r2) r1.

Definition ranges_within (r1 r2 : list (N * N)) : bool :=
  forallb (λ a, existsb (λ b, (b.1 <=? a.1)%N && (a.2 <=? b.2)%N) r2) r1.

(** ** What the service answers to a search *)

Definition search_term (taxid : string) : string := "txid" +:+ taxid +:+ "[Organism]".

(** Every step of the [try] block of [search_taxid] goes through and the
    count is not zero. *)
Inductive search_succeeds (sv : Service) (taxid organism_name : string)
    (count : Z) (webenv query_key : string) : Prop :=
| search_succeeds_intro record0 records results c :
    efetch_taxonomy sv taxid = Ok (record0 :: records) →
    record0 !! "ScientificName" = Some organism_name →
    esearch_nucleotide sv (search_term taxid) = Ok results →
    results !! "Count" = Some c →
    Py.int c = Ok count →
    count ≠ 0 →
    results !! "WebEnv" = Some webenv →
    results !! "QueryKey" = Some query_key →
    search_succeeds sv taxid organism_name count webenv query_key.

Inductive taxonomy_names (sv : Service) (taxid organism_name : string) : Prop :=
| taxonomy_names_intro record0 records :
    efetch_taxonomy sv taxid = Ok (record0 :: records) →
    record0 !! "ScientificName" = Some organism_name →
    taxonomy_names sv taxid organism_name.

Inductive search_counts (sv : Service) (taxid : string)
    (results : gmap string string) (count : Z) : Prop :=
| search_counts_intro organism_name c :
    taxonomy_names sv taxid organism_name →
    esearch_nucleotide sv (search_term taxid) = Ok results →
    results !! "Count" = Some c →
    Py.int c = Ok count →
    search_counts sv taxid results count.

(** The [try] block raises: one constructor for every statement of
    [search_taxid] that can. *)
Inductive search_fails (sv : Service) (taxid : string) : Prop :=
| taxonomy_raises e :
    efetch_taxonomy sv taxid = Raise e → search_fails sv taxid
| taxonomy_empty :
    efetch_taxonomy sv taxid = Ok [] → search_fails sv taxid
| taxonomy_unnamed record0 records :
    efetch_taxonomy sv taxid = Ok (record0 :: records) →
    record0 !! "ScientificName" = None → search_fails sv taxid
| esearch_raises organism_name e :
    taxonomy_names sv taxid organism_name →
    esearch_nucleotide sv (search_term taxid) = Raise e → search_fails sv taxid
| count_missing organism_name results :
    taxonomy_names sv taxid organism_name →
    esearch_nucleotide sv (search_term taxid) = Ok results →
    results !! "Count" = None → search_fails sv taxid
| count_malformed organism_name results c e :
    taxonomy_names sv taxid organism_name →
    esearch_nucleotide sv (search_term taxid) = Ok results →
    results !! "Count" = Some c →
    Py.int c = Raise e → search_fails sv taxid
| webenv_missing results count :
    search_counts sv taxid results count → count ≠ 0 →
    results !! "WebEnv" = None → search_fails sv taxid
| query_key_missing results count webenv :
    search_counts sv taxid results count → count ≠ 0 →
    results !! "WebEnv" = Some webenv →
    results !! "QueryKey" = None → search_fails sv taxid.

(** The search goes through and reports no match. *)
Definition search_count_zero (sv : Service) (taxid : string) : Prop :=
  ∃ results, search_counts sv taxid results 0.

(** The state a successful search leaves behind. *)
Definition searched (taxid organism_name : string) (count : Z)
    (webenv query_key : string) (w : World) : World :=
  mkWorld (heap w)
    (<["count" := VInt count]>
       (<["query_key" := VStr query_key]>
          (<["webenv" := VStr webenv]> (self_dict w))))
    (stdin w)
    (stdout w ++ ["Searching for records with taxID: " +:+ taxid;
                  "Organism: " +:+ organism_name +:+ " (TaxID: " +:+ taxid +:+ ")";
                  "Found " +:+ pretty count +:+ " records"])
    (requests w ++ [EfetchTaxonomy taxid; EsearchNucleotide (search_term taxid)])
    (files w).

(** The text [fetch_records] hands back for an answer of the service. *)
Definition fetched_text (answer : Result string) : string :=
  match answer with
  | Ok text => text
  | Raise _ => ""
  end.

(** ** Session state of the client *)

(** The guard of [fetch_records] fires. *)
Definition no_session (w : World) : Prop :=
  self_dict w !! "webenv" = None ∨ self_dict w !! "query_key" = None.

(** None of the three attributes a search stores is there. *)
Definition session_absent (w : World) : Prop :=
  self_dict w !! "webenv" = None
  ∧ self_dict w !! "query_key" = None
  ∧ self_dict w !! "count" = None.

(** All three are there. *)
Definition session_held (w : World) : Prop :=
  is_Some (self_dict w !! "webenv")
  ∧ is_Some (self_dict w !! "query_key")
  ∧ is_Some (self_dict w !! "count").


(** Several searches in a row on the same client. *)
Definition run_searches (calls : list (Service * string)) : M (list (option Z)) :=
  mapM (λ call, search_taxid call.1 call.2) calls.

(** ** Sample data *)

Module Sample.

Definition rec_a : SeqRecord.t := SeqRecord.mk "NM_0001.1" "ACGTACGT" "alpha mRNA".
Definition rec_b : SeqRecord.t := SeqRecord.mk "NM_0002.1" "ACG" "beta mRNA".
Definition rec_c : SeqRecord.t := SeqRecord.mk "NM_0003.1" "TTGACCAA" "gamma mRNA".

Definition taxonomy : list (gmap string string) :=
  [ {[ "ScientificName" := "Homo sapiens" ]} ].

Definition history (count : string) : gmap string string :=
  <["Count" := count]> (<["WebEnv" := "MCID_1"]> {[ "QueryKey" := "1" ]}).

Definition parse (text : string) : list SeqRecord.t * option exn :=
  if decide (text = "") then ([], None) else ([rec_a; rec_b; rec_c], None).

(** Three matches, and the fetch answers. *)
Definition service : Service :=
  mkService (λ _, Ok taxonomy) (λ _, Ok (history "3"))
            (λ _ _ _ _, Ok "LOCUS NM_0001") parse.

(** No match. *)
Definition service_zero : Service :=
  mkService (λ _, Ok taxonomy) (λ _, Ok (history "0"))
            (λ _ _ _ _, Ok "LOCUS NM_0001") parse.

(** Three matches, and the fetch fails. *)
Definition service_down : Service :=
  mkService (λ _, Ok taxonomy) (λ _, Ok (history "3"))
            (λ _ _ _ _, Raise (LibraryError "HTTPError" "HTTP Error 502: Bad Gateway"))
            parse.

(** A program state before anything ran, with the given keyboard input. *)
Definition start (lines : list string) : World :=
  mkWorld [] ∅ (codepoints <$> lines) [] [] [].

(** A state in which a list holding the three records exists. *)
Definition with_records : World :=
  mkWorld [[VRecord rec_a; VRecord rec_b; VRecord rec_c]] ∅ [] [] [] [].

(** A state after a successful search. *)
Definition in_session : World :=
  mkWorld [] (<["query_key" := VStr "1"]> {[ "webenv" := VStr "MCID_1" ]})
          [] [] [] [].

End Sample.

(** ** Further vocabulary *)

(** The taxonomy lookup at the head of [search_taxid] does not give a
    name, and the exception this raises. *)
Inductive taxonomy_fails (sv : Service) (taxid : string) : exn → Prop :=
| taxonomy_fails_raise e :
    efetch_taxonomy sv taxid = Raise e → taxonomy_fails sv taxid e
| taxonomy_fails_empty :
    efetch_taxonomy sv taxid = Ok [] →
    taxonomy_fails sv taxid (IndexError "list index out of range")
| taxonomy_fails_unnamed record0 records :
    efetch_taxonomy sv taxid = Ok (record0 :: records) →
    record0 !! "ScientificName" = None →
    taxonomy_fails sv taxid (KeyError "ScientificName").

(** More sample answers of the service. *)
Module Edge.

(** The taxonomy database does not know the identifier. *)
Definition service_unknown : Service :=
  mkService (λ _, Ok []) (λ _, Ok (Sample.history "3"))
            (λ _ _ _ _, Ok "LOCUS NM_0001") Sample.parse.

(** An answer with a web environment and no query key. *)
Definition service_unpaired : Service :=
  mkService (λ _, Ok Sample.taxonomy)
            (λ _, Ok (<["Count" := "7"]> {[ "WebEnv" := "MCID_2" ]}))
            (λ _ _ _ _, Ok "LOCUS NM_0001") Sample.parse.


(** The fetched text is cut off: the parser yields one entry, then
    raises. *)
Definition service_truncated : Service :=
  mkService (λ _, Ok Sample.taxonomy) (λ _, Ok (Sample.history "3"))
            (λ _ _ _ _, Ok "LOCUS NM_0001")
            (λ _, ([Sample.rec_a],
                   Some (LibraryError "ValueError" "Premature end of file"))).

(** A state with two lists: the three records, and an empty list. *)
Definition two_lists : World :=
  mkWorld [[VRecord Sample.rec_a; VRecord Sample.rec_b; VRecord Sample.rec_c]; []]
          ∅ [] [] [] [].

(** A state whose list is in ascending order of length. *)
Definition ascending : World :=
  mkWorld [[VRecord Sample.rec_b; VRecord Sample.rec_c; VRecord Sample.rec_a]]
          ∅ [] [] [] [].

(** A client that holds a complete session. *)
Definition full_session : World :=
  mkWorld []
          (<["count" := VInt 3]>
             (<["query_key" := VStr "1"]> {[ "webenv" := VStr "MCID_1" ]}))
          [] [] [] [].

End Edge.

(** * Properties *)

(** ** The model of [sorted] *)

Section sorted.
Context {A : Type} (key : A → Z).

Local Abbreviation key_le := (key_le key).

Lemma insert_by_perm x l : Py.insert_by key x l ≡ₚ x :: l.
Proof.
  induction l as [|y l IH]; simpl; [done|].
  destruct (key x <=? key y); [done|].
  rewrite IH. apply Permutation_swap.
Qed.

Lemma sorted_perm l : Py.sorted key l ≡ₚ l.
Proof.
  induction l as [|x l IH]; simpl; [done|].
  by rewrite insert_by_perm, IH.
Qed.

Lemma insert_by_sorted x l :
  StronglySorted key_le l → StronglySorted key_le (Py.insert_by key x l).
Proof.
  induction 1 as [|y l Hl IH Hy]; simpl.
  - repeat constructor.
  - destruct (Z.leb_spec (key x) (key y)) as [Hxy|Hxy].
    + constructor; [by constructor|].
      constructor; [done|].
      eapply Forall_impl; [exact Hy|]. unfold key_le. intros; lia.
    + constructor; [done|].
      rewrite insert_by_perm. constructor; [unfold key_le; lia | done].
Qed.

Lemma sorted_sorted l : StronglySorted key_le (Py.sorted key l).
Proof.
  induction l; simpl; [constructor | by apply insert_by_sorted].
Qed.

Lemma insert_by_filter x l k :
  filter (λ y, key y = k) (Py.insert_by key x l)
  = filter (λ y, key y = k) (x :: l).
Proof.
  induction l as [|y l IH]; simpl; [done|].
  destruct (Z.leb_spec (key x) (key y)) as [Hxy|Hxy]; [done|].
  rewrite filter_cons, IH, !filter_cons.
  repeat case_decide; try done; lia.
Qed.

Lemma sorted_stable l k :
  filter (λ y, key y = k) (Py.sorted key l) = filter (λ y, key y = k) l.
Proof.
  induction l as [|x l IH]; simpl; [done|].
  by rewrite insert_by_filter, !filter_cons, IH.
Qed.

(** Two lists in ascending key order that agree on every class of equal
    keys are the same list. *)
Lemma stable_sorted_eq l1 l2 :
  StronglySorted key_le l1 → StronglySorted key_le l2 →
  (∀ k, filter (λ y, key y = k) l1 = filter (λ y, key y = k) l2) →
  l1 = l2.
Proof.
  intros H1. revert l2.
  induction H1 as [|x l1 Hl1 IH Hx]; intros l2 H2 Hf.
  - destruct l2 as [|y l2]; [done|].
    specialize (Hf (key y)). rewrite filter_cons in Hf.
    by case_decide.
  - destruct H2 as [|y l2 Hl2 Hy].
    { specialize (Hf (key x)). rewrite filter_cons in Hf. by case_decide. }
    assert (key x = key y) as Hk.
    { assert (y ∈ x :: l1) as Hyin.
      { eapply (list_elem_of_filter (λ z, key z = key y)).
        rewrite Hf, filter_cons. case_decide; [left|done]. }
      assert (x ∈ y :: l2) as Hxin.
      { eapply (list_elem_of_filter (λ z, key z = key x)).
        rewrite <- Hf, filter_cons. case_decide; [left|done]. }
      apply elem_of_cons in Hyin as [->|Hyin]; [done|].
      apply elem_of_cons in Hxin as [->|Hxin]; [done|].
      rewrite Forall_forall in Hx, Hy.
      specialize (Hx _ Hyin). specialize (Hy _ Hxin).
      unfold key_le in *. lia. }
    assert (x = y) as ->.
    { specialize (Hf (key x)). rewrite !filter_cons in Hf.
      repeat case_decide; try done. by injection Hf. }
    f_equal. apply IH; [done|].
    intros k. specialize (Hf k). rewrite !filter_cons in Hf.
    case_decide; [by injection Hf | done].
Qed.

(** Whatever stable ascending sort the interpreter runs, its result is
    the one of [Py.sorted]. *)
Lemma sorted_unique l l' :
  StronglySorted key_le l' →
  (∀ k, filter (λ y, key y = k) l' = filter (λ y, key y = k) l) →
  l' = Py.sorted key l.
Proof.
  intros Hs Hf. apply stable_sorted_eq; [done | apply sorted_sorted |].
  intros k. by rewrite Hf, sorted_stable.
Qed.
End sorted.

(** ** Running the monad *)

Lemma run_bind {A B} (m : M A) (f : A → M B) w :
  (m ≫= f) w
  = match m w with
    | (Ok a, w') => f a w'
    | (Raise e, w') => (Raise e, w')
    end.
Proof. reflexivity. Qed.

(** Three lists allocated one after the other, at the end of the store. *)
Lemma lookup_end_0 {A} (h : list A) x t : (h ++ x :: t) !! length h = Some x.
Proof. by apply list_lookup_middle. Qed.

Lemma lookup_end_1 {A} (h : list A) x y t :
  (h ++ x :: y :: t) !! S (length h) = Some y.
Proof. induction h; simpl; auto. Qed.

Lemma lookup_end_2 {A} (h : list A) x y z t :
  (h ++ x :: y :: z :: t) !! S (S (length h)) = Some z.
Proof. induction h; simpl; auto. Qed.

Lemma insert_end_0 {A} (h : list A) x t v :
  <[length h := v]> (h ++ x :: t) = h ++ v :: t.
Proof. induction h; simpl; f_equal; auto. Qed.

Lemma insert_end_1 {A} (h : list A) x y t v :
  <[S (length h) := v]> (h ++ x :: y :: t) = h ++ x :: v :: t.
Proof. induction h; simpl; f_equal; auto. Qed.

Lemma insert_end_2 {A} (h : list A) x y z t v :
  <[S (S (length h)) := v]> (h ++ x :: y :: z :: t) = h ++ x :: y :: v :: t.
Proof. induction h; simpl; f_equal; auto. Qed.

Lemma csv_loop rs : ∀ w h xa xs xd,
  heap w = h ++ [xa; xs; xd] →
  for_each (VRecord <$> rs) (λ item,
    record ← as_record item;
    list_append (length h) (VStr (SeqRecord.id record)) ;;
    list_append (S (length h)) (VInt (len_seq record)) ;;
    list_append (S (S (length h))) (VRef (S (S (length h))))) w
  = (Ok tt,
     set_heap (h ++ [xa ++ (VStr ∘ SeqRecord.id <$> rs);
                     xs ++ (VInt ∘ len_seq <$> rs);
                     xd ++ replicate (length rs) (VRef (S (S (length h))))]) w).
Proof.
  induction rs as [|r rs IH]; intros w h xa xs xd Hw.
  - simpl. rewrite !app_nil_r, <- Hw. by destruct w.
  - cbn [fmap list_fmap for_each].
    rewrite run_bind.
    unfold as_record at 1. rewrite run_bind. cbn [mret M_ret].
    rewrite run_bind. unfold list_append at 1.
    rewrite Hw, lookup_end_0, insert_end_0.
    rewrite run_bind. unfold list_append at 1. cbn [heap set_heap].
    rewrite lookup_end_1, insert_end_1.
    unfold list_append at 1. cbn [heap set_heap].
    rewrite lookup_end_2, insert_end_2.
    erewrite IH by reflexivity.
    unfold set_heap. cbn. by rewrite <- !app_assoc.
Qed.

Lemma pd_DataFrame_run3 w h a b c na nb nc :
  heap w = h ++ [a; b; c] → length b = length a → length c = length a →
  pd_DataFrame [(na, length h); (nb, S (length h)); (nc, S (S (length h)))] w
  = (Ok (mkDataFrame [(na, a); (nb, b); (nc, c)] (Z.of_nat <$> seq 0 (length a))),
     w).
Proof.
  intros Hw Hb Hc. destruct w as [hp sd si so rq fl]. simpl in Hw. subst hp.
  unfold pd_DataFrame, list_items.
  repeat (progress (unfold mbind, M_bind, mret, M_ret; cbn);
          rewrite ?lookup_end_0, ?lookup_end_1, ?lookup_end_2).
  by rewrite Hb, Hc, Nat.eqb_refl.
Qed.

Lemma generate_csv_run records taxid w rs :
  heap w !! records = Some (VRecord <$> rs) →
  generate_csv records taxid w
  = (Ok tt,
     mkWorld
       (heap w ++ [VStr ∘ SeqRecord.id <$> rs;
                   VInt ∘ len_seq <$> rs;
                   replicate (length rs) (VRef (S (S (length (heap w)))))])
       (self_dict w) (stdin w)
       (stdout w ++ ["Saved csv report to " +:+ csv_path taxid +:+ "."])
       (requests w)
       (files w ++ [CsvFile (csv_path taxid) (csv_frame (length (heap w)) rs)])).
Proof.
  intros Hrec. unfold generate_csv.
  rewrite run_bind. unfold new_list at 1.
  rewrite run_bind. unfold new_list at 1.
  rewrite run_bind. unfold new_list at 1.
  cbn [heap set_heap].
  rewrite !length_app. cbn [length]. rewrite !Nat.add_1_r.
  rewrite <- !app_assoc. cbn [app].
  rewrite run_bind. unfold list_items at 1. cbn [heap set_heap].
  rewrite (lookup_app_l_Some _ _ _ _ Hrec).
  rewrite run_bind.
  erewrite csv_loop by reflexivity.
  rewrite !app_nil_l.
  rewrite run_bind.
  erewrite pd_DataFrame_run3;
    [| reflexivity
     | by rewrite !length_fmap
     | by rewrite length_replicate, length_fmap].
  rewrite length_fmap.
  reflexivity.
Qed.

Lemma lookup_end_3 {A} (h : list A) x y z u t :
  (h ++ x :: y :: z :: u :: t) !! S (S (S (length h))) = Some u.
Proof. induction h; simpl; auto. Qed.

Lemma mapM_as_record rs w : mapM as_record (VRecord <$> rs) w = (Ok rs, w).
Proof.
  induction rs as [|r rs IH]; [done|].
  cbn [fmap list_fmap mapM]. rewrite run_bind. cbn [as_record mret M_ret].
  rewrite run_bind. change (list_fmap _ _ VRecord rs) with (VRecord <$> rs).
  by rewrite IH.
Qed.

Lemma chart_loop rs : ∀ w h n xa xs,
  n = length h →
  heap w = h ++ [xa; xs] →
  for_each (VRecord <$> rs) (λ item,
    record ← as_record item;
    list_append n (VStr (SeqRecord.id record)) ;;
    list_append (S n) (VInt (len_seq record))) w
  = (Ok tt,
     set_heap (h ++ [xa ++ (VStr ∘ SeqRecord.id <$> rs);
                     xs ++ (VInt ∘ len_seq <$> rs)]) w).
Proof.
  induction rs as [|r rs IH]; intros w h n xa xs -> Hw.
  - simpl. rewrite !app_nil_r, <- Hw. by destruct w.
  - cbn [fmap list_fmap for_each].
    rewrite run_bind.
    unfold as_record at 1. rewrite run_bind. cbn [mret M_ret].
    rewrite run_bind. unfold list_append at 1.
    rewrite Hw, lookup_end_0, insert_end_0.
    unfold list_append at 1. cbn [heap set_heap].
    rewrite lookup_end_1, insert_end_1.
    erewrite IH by reflexivity.
    unfold set_heap. cbn. by rewrite <- !app_assoc.
Qed.

Lemma generate_chart_run records taxid w rs :
  heap w !! records = Some (VRecord <$> rs) →
  generate_chart records taxid w
  = (Ok tt,
     mkWorld
       (heap w ++ [VRecord <$> rs;
                   VRecord <$> Py.sorted len_seq rs;
                   VStr ∘ SeqRecord.id <$> Py.sorted len_seq rs;
                   VInt ∘ len_seq <$> Py.sorted len_seq rs])
       (self_dict w) (stdin w)
       (stdout w ++ ["Saved chart to " +:+ chart_path taxid +:+ "."])
       (requests w)
       (files w ++ [PngFile (chart_path taxid) (chart_figure rs)])).
Proof.
  intros Hrec. unfold generate_chart.
  rewrite run_bind. unfold list_items at 1. rewrite Hrec.
  rewrite run_bind. unfold new_list at 1.
  rewrite run_bind. unfold list_items at 1. cbn [heap set_heap].
  rewrite lookup_end_0.
  rewrite run_bind, mapM_as_record.
  rewrite run_bind. unfold new_list at 1.
  rewrite run_bind. unfold new_list at 1.
  rewrite run_bind. unfold new_list at 1.
  cbn [heap set_heap].
  rewrite !length_app. cbn [length]. rewrite !Nat.add_1_r.
  rewrite <- !app_assoc. cbn [app].
  rewrite run_bind. unfold list_items at 1. cbn [heap set_heap].
  rewrite lookup_end_1.
  rewrite run_bind.
  erewrite (chart_loop _ _ (heap w ++ [VRecord <$> rs; VRecord <$> Py.sorted len_seq rs]));
    [| rewrite length_app; simpl; lia
     | cbn [heap set_heap]; by rewrite <- app_assoc ].
  rewrite !app_nil_l, <- app_assoc. cbn [app].
  rewrite run_bind. unfold ax_plot.
  rewrite run_bind. unfold list_items at 1. cbn [heap set_heap].
  rewrite lookup_end_2.
  rewrite run_bind. unfold list_items at 1. cbn [heap set_heap].
  rewrite lookup_end_3.
  rewrite !length_fmap, Nat.eqb_refl.
  reflexivity.
Qed.

Lemma skip_iff_not_in_range min_len max_len r :
  below_min min_len r || above_max max_len r = false ↔ in_range min_len max_len r.
Proof.
  unfold below_min, above_max, in_range, at_least, at_most.
  destruct min_len as [m|], max_len as [m'|]; simpl;
    rewrite ?orb_false_iff, ?Z.ltb_ge, ?Z.gtb_ltb, ?Z.ltb_ge, ?orb_false_r; 
    try rewrite Z.ltb_ge; intuition.
Qed.

Lemma filter_loop min_len max_len l rs : ∀ w xs,
  heap w !! l = Some xs →
  for_each rs (λ record,
    if below_min min_len record then mret tt
    else if above_max max_len record then mret tt
    else list_append l (VRecord record)) w
  = (Ok tt,
     set_heap (<[l := xs ++ (VRecord <$> filter (in_range min_len max_len) rs)]>
                 (heap w)) w).
Proof.
  induction rs as [|r rs IH]; intros w xs Hl.
  - simpl. rewrite app_nil_r, list_insert_id by done. by destruct w.
  - cbn [for_each]. rewrite run_bind, filter_cons.
    pose proof (skip_iff_not_in_range min_len max_len r) as Hskip.
    destruct (below_min min_len r) eqn:Hb; [|destruct (above_max max_len r) eqn:Ha];
      simpl in Hskip.
    + rewrite decide_False by (rewrite <- Hskip; done).
      cbn [mret M_ret]. by apply IH.
    + rewrite decide_False by (rewrite <- Hskip; done).
      cbn [mret M_ret]. by apply IH.
    + rewrite decide_True by (by apply Hskip).
      unfold list_append at 1. rewrite Hl.
      erewrite IH.
      2:{ cbn [heap set_heap]. apply list_lookup_insert_eq.
          by eapply lookup_lt_Some. }
      unfold set_heap; cbn. rewrite list_insert_insert_eq.
      by rewrite <- app_assoc.
Qed.

Lemma filter_records_run min_len max_len l rs oe w xs :
  heap w !! l = Some xs →
  filter_records min_len max_len l (rs, oe) w
  = (match oe with Some e => Raise e | None => Ok tt end,
     set_heap (<[l := xs ++ (VRecord <$> filter (in_range min_len max_len) rs)]>
                 (heap w)) w).
Proof.
  intros Hl. unfold filter_records, for_each_yielded. cbn [fst snd].
  rewrite run_bind. erewrite filter_loop by done.
  by destruct oe.
Qed.

(** ** fetch_records *)

Lemma fetch_records_no_session sv start max_records w :
  no_session w →
  fetch_records sv start max_records w
  = (Ok (VRef (length (heap w))),
     mkWorld (heap w ++ [[]]) (self_dict w) (stdin w)
       (stdout w ++ ["No search results to fetch. Run search_taxid() first."])
       (requests w) (files w)).
Proof.
  intros Hno. unfold fetch_records, hasattr.
  rewrite !run_bind.
  assert (negb (bool_decide (is_Some (self_dict w !! "webenv")))
          || negb (bool_decide (is_Some (self_dict w !! "query_key"))) = true) as ->.
  { destruct Hno as [-> | ->];
      rewrite (bool_decide_eq_false_2 (is_Some None)) by apply is_Some_None;
      [done | by rewrite orb_true_r]. }
  reflexivity.
Qed.

Lemma fetch_records_session sv start max_records w webenv query_key :
  self_dict w !! "webenv" = Some webenv →
  self_dict w !! "query_key" = Some query_key →
  fetch_records sv start max_records w
  = let batch_size := Py.min max_records 500 in
    let w' := set_requests
                (requests w ++ [EfetchNucleotide start batch_size webenv query_key]) w in
    match efetch_nucleotide sv start batch_size webenv query_key with
    | Ok text => (Ok (VStr text), w')
    | Raise e =>
        (Ok (VStr ""),
         set_stdout (stdout w ++ ["Error fetching records: " +:+ str_exn e]) w')
    end.
Proof.
  intros Hw Hq. unfold fetch_records, hasattr.
  rewrite !run_bind, Hw, Hq.
  rewrite !bool_decide_eq_true_2 by done. cbn [negb orb].
  unfold try_except. rewrite run_bind. unfold getattr at 1. rewrite Hw.
  rewrite run_bind. unfold getattr at 1. rewrite Hq.
  rewrite run_bind. unfold remote.
  by destruct (efetch_nucleotide _ _ _ _ _).
Qed.

(** ** search_taxid *)

Lemma search_dichotomy sv taxid :
  (∃ organism_name count webenv query_key,
     search_succeeds sv taxid organism_name count webenv query_key)
  ∨ search_count_zero sv taxid ∨ search_fails sv taxid.
Proof.
  destruct (efetch_taxonomy sv taxid) as [[|record0 records]|e] eqn:Ht;
    [right; right; by apply taxonomy_empty | |
     right; right; by eapply taxonomy_raises].
  destruct (record0 !! "ScientificName") as [name|] eqn:Hn;
    [|right; right; by eapply taxonomy_unnamed].
  assert (taxonomy_names sv taxid name) as Hnames by (by econstructor).
  destruct (esearch_nucleotide sv (search_term taxid)) as [results|e] eqn:Hs;
    [|right; right; by eapply esearch_raises].
  destruct (results !! "Count") as [c|] eqn:Hc;
    [|right; right; by eapply count_missing].
  destruct (Py.int c) as [count|e] eqn:Hi;
    [|right; right; by eapply count_malformed].
  assert (search_counts sv taxid results count) as Hcounts by (by econstructor).
  destruct (decide (count = 0)) as [->|Hnz];
    [right; left; by exists results|].
  destruct (results !! "WebEnv") as [webenv|] eqn:Hw;
    [|right; right; by eapply webenv_missing].
  destruct (results !! "QueryKey") as [query_key|] eqn:Hq;
    [|right; right; by eapply query_key_missing].
  left. exists name, count, webenv, query_key. by econstructor.
Qed.

Local Arguments Py.int : simpl never.
Local Arguments String.append : simpl never.
Local Arguments pretty : simpl never.

Ltac run_monad :=
  unfold try_except, remote, first_item, getitem, lift, print, setattr, raise;
  repeat (progress (unfold mbind, M_bind, mret, M_ret; cbn)).

Lemma search_taxid_ok sv taxid organism_name count webenv query_key w :
  search_succeeds sv taxid organism_name count webenv query_key →
  search_taxid sv taxid w
  = (Ok (Some count), searched taxid organism_name count webenv query_key w).
Proof.
  intros [record0 records results c Ht Hn Hs Hc Hi Hnz Hw Hq].
  unfold search_taxid, searched. fold (search_term taxid).
  rewrite Ht, Hs. run_monad. rewrite Hn. run_monad. rewrite Hc. run_monad.
  rewrite Hi. run_monad.
  apply Z.eqb_neq in Hnz. rewrite Hnz. run_monad.
  rewrite Hw. run_monad. rewrite Hq. run_monad.
  by rewrite <- !app_assoc.
Qed.

Lemma search_taxid_zero sv taxid w :
  search_count_zero sv taxid →
  ∃ out, search_taxid sv taxid w
         = (Ok None,
            mkWorld (heap w) (self_dict w) (stdin w) (stdout w ++ out)
              (requests w ++ [EfetchTaxonomy taxid;
                              EsearchNucleotide (search_term taxid)])
              (files w)).
Proof.
  intros [results [name c [record0 records Ht Hn] Hs Hc Hi]].
  unfold search_taxid. fold (search_term taxid).
  rewrite Ht, Hs. run_monad. rewrite Hn. run_monad. rewrite Hc. run_monad.
  rewrite Hi. run_monad.
  rewrite <- !app_assoc. eexists. reflexivity.
Qed.

Lemma search_taxid_fails sv taxid w :
  search_fails sv taxid →
  ∃ w', search_taxid sv taxid w = (Ok None, w')
        ∧ heap w' = heap w ∧ stdin w' = stdin w ∧ files w' = files w
        ∧ (self_dict w' = self_dict w
           ∨ ∃ results webenv,
               esearch_nucleotide sv (search_term taxid) = Ok results
               ∧ results !! "WebEnv" = Some webenv
               ∧ results !! "QueryKey" = None
               ∧ self_dict w' = <["webenv" := VStr webenv]> (self_dict w)).
Proof.
  intros Hfail. unfold search_taxid. fold (search_term taxid).
  destruct Hfail as
    [ e Ht | Ht | record0 records Ht Hn
    | name e [record0 records Ht Hn] Hs
    | name results [record0 records Ht Hn] Hs Hc
    | name results c e [record0 records Ht Hn] Hs Hc Hi
    | results count [name c [record0 records Ht Hn] Hs Hc Hi] Hnz Hw
    | results count webenv [name c [record0 records Ht Hn] Hs Hc Hi] Hnz Hw Hq ];
    rewrite Ht; run_monad;
    rewrite ?Hn; run_monad; rewrite ?Hs; run_monad; rewrite ?Hc; run_monad;
    rewrite ?Hi; run_monad;
    try (apply Z.eqb_neq in Hnz; rewrite Hnz; run_monad);
    rewrite ?Hw; run_monad; rewrite ?Hq; run_monad;
    eexists; (split; [reflexivity|]); cbn; repeat split; eauto 10.
Qed.

Lemma searched_webenv taxid organism_name count webenv query_key w :
  self_dict (searched taxid organism_name count webenv query_key w) !! "webenv"
  = Some (VStr webenv).
Proof. unfold searched. cbn [self_dict]. by simplify_map_eq. Qed.

Lemma searched_query_key taxid organism_name count webenv query_key w :
  self_dict (searched taxid organism_name count webenv query_key w) !! "query_key"
  = Some (VStr query_key).
Proof. unfold searched. cbn [self_dict]. by simplify_map_eq. Qed.

Ltac norm_world :=
  unfold set_heap, set_self_dict, set_stdin, set_stdout, set_requests,
    set_files, searched;
  cbn [heap self_dict stdin stdout requests files].

(** ** main *)

Lemma main_saved sv w line1 line2 rest organism_name count webenv query_key rs :
  stdin w = line1 :: line2 :: rest →
  search_succeeds sv "9606" organism_name count webenv query_key →
  let text := fetched_text (efetch_nucleotide sv 0 5 (VStr webenv) (VStr query_key)) in
  let kept := filter (in_range (int_or_None (Py.strip line1))
                               (int_or_None (Py.strip line2))) rs in
  SeqIO_parse sv text = (rs, None) →
  ∃ w', main sv w = (Ok SAVED, w')
        ∧ files w' = files w ++
            [CsvFile (csv_path "9606") (csv_frame (S (length (heap w))) kept);
             PngFile (chart_path "9606") (chart_figure kept);
             TextFile sample_path text]
        ∧ requests w' = requests w ++
            [EfetchTaxonomy "9606"; EsearchNucleotide (search_term "9606");
             EfetchNucleotide 0 5 (VStr webenv) (VStr query_key)]
        ∧ heap w' !! length (heap w) = Some (VRecord <$> kept)
        ∧ stdin w' = rest.
Proof.
  intros Hin Hok text kept Hparse. subst text kept. unfold main.
  destruct w as [h sd si so rq fl]. cbn [stdin heap files requests] in *. subst si.
  rewrite run_bind. unfold NCBIRetriever_init, setattr. rewrite run_bind. norm_world.
  rewrite run_bind. unfold input at 1. norm_world.
  rewrite run_bind. unfold input at 1. norm_world.
  rewrite run_bind, (search_taxid_ok _ _ _ _ _ _ _ Hok). norm_world.
  assert (falsy (Some count) = false) as ->.
  { destruct Hok. by apply Z.eqb_neq. }
  rewrite run_bind. unfold print at 1. norm_world.
  rewrite run_bind.
  erewrite fetch_records_session by (norm_world; by simplify_map_eq).
  norm_world. change (Py.min 5 500) with 5.
  destruct (efetch_nucleotide sv 0 5 (VStr webenv) (VStr query_key)) as [text|e];
    cbn [fetched_text] in *;
    (rewrite run_bind; cbn [StringIO mret M_ret]; rewrite Hparse;
     rewrite run_bind; unfold new_list at 1; norm_world;
     rewrite run_bind;
     erewrite filter_records_run by (norm_world; apply lookup_end_0);
     norm_world; rewrite insert_end_0, app_nil_l;
     rewrite run_bind;
     erewrite generate_csv_run by (norm_world; apply lookup_end_0);
     norm_world;
     rewrite run_bind;
     erewrite generate_chart_run
       by (norm_world; apply lookup_app_l_Some, lookup_end_0);
     norm_world;
     rewrite run_bind; unfold open_w_write, write_file; norm_world;
     rewrite run_bind; unfold print at 1; norm_world;
     rewrite run_bind; unfold print at 1; norm_world;
     eexists; split; [reflexivity|]; norm_world;
     rewrite <- !app_assoc, length_app, Nat.add_1_r; cbn [app];
     repeat split; try done;
     apply lookup_end_0).
Qed.

Lemma main_no_results sv w line1 line2 rest :
  stdin w = line1 :: line2 :: rest →
  search_count_zero sv "9606" ∨ search_fails sv "9606" →
  ∃ w' out, main sv w = (Ok NO_RESULTS, w')
        ∧ files w' = files w
        ∧ heap w' = heap w
        ∧ stdout w' = out ++ ["No records found. Exiting."].
Proof.
  intros Hin Hnone. unfold main.
  destruct w as [h sd si so rq fl]. cbn [stdin heap files requests] in *. subst si.
  rewrite run_bind. unfold NCBIRetriever_init, setattr. rewrite run_bind. norm_world.
  rewrite run_bind. unfold input at 1. norm_world.
  rewrite run_bind. unfold input at 1. norm_world.
  rewrite run_bind.
  destruct Hnone as [Hzero | Hfail].
  - edestruct search_taxid_zero as [out ->]; [exact Hzero|]. norm_world.
    cbn [falsy]. rewrite run_bind. unfold print at 1. norm_world.
    eexists _, _. by repeat split.
  - edestruct search_taxid_fails as (w' & -> & Hh & Hs & Hf & _); [exact Hfail|].
    cbn [falsy]. rewrite run_bind. unfold print at 1. norm_world.
    eexists _, _. by repeat split.
Qed.

(** ** Length bounds typed at the keyboard *)

(** What becomes of some typed lines: digits with an underscore and blanks
    around; a sign; nothing; a letter after the digits; two underscores; a
    separator character, which [strip] removes and [int] would not; a
    no-break space on either side; Arabic-Indic and fullwidth digits; a
    fullwidth plus sign; a superscript two. *)
Example int_or_None_literals :
  int_or_None (Py.strip (codepoints " 1_000 ")) = Some 1000
  ∧ int_or_None (Py.strip (codepoints "-5")) = Some (-5)
  ∧ int_or_None (Py.strip (codepoints "")) = None
  ∧ int_or_None (Py.strip (codepoints "12a")) = None
  ∧ int_or_None (Py.strip (codepoints "1__0")) = None
  ∧ int_or_None (Py.strip [0x1C; 0x34]%N) = Some 4
  ∧ int_or_None [0x1C; 0x34]%N = None
  ∧ int_or_None (Py.strip [0xA0; 0x34; 0xA0]%N) = Some 4
  ∧ int_or_None (Py.strip [0x664; 0xFF12]%N) = Some 42
  ∧ int_or_None (Py.strip [0xFF0B; 0x34]%N) = None
  ∧ int_or_None (Py.strip [0xB2]%N) = None.
Proof. repeat split; vm_compute; reflexivity. Qed.

(** A literal of 4300 digits is read; one digit more and it is refused. *)
Example int_or_None_digit_limit :
  is_Some (int_or_None (Py.strip (replicate 4300 0x31%N)))
  ∧ int_or_None (Py.strip (replicate 4301 0x31%N)) = None
  ∧ Py.int_literal (replicate 4301 0x31%N) = inr (Py.TooManyDigits 4301).
Proof.
  split; [|split; vm_compute; reflexivity].
  assert (∃ n, int_or_None (Py.strip (replicate 4300 0x31%N)) = Some n) as [n ->];
    [|by eexists].
  vm_compute. by eexists.
Qed.

Lemma in_ranges_apart r1 r2 c :
  ranges_apart r1 r2 = true →
  Py.in_ranges r1 c = true → Py.in_ranges r2 c = false.
Proof.
  unfold ranges_apart, Py.in_ranges. rewrite forallb_forall.
  intros Hap H1. apply existsb_exists in H1 as (a & Ha & Hc).
  specialize (Hap a Ha). rewrite forallb_forall in Hap.
  apply not_true_is_false. intros H2.
  apply existsb_exists in H2 as (b & Hb & Hc').
  specialize (Hap b Hb).
  apply andb_true_iff in Hc as [Hc1 Hc2], Hc' as [Hc1' Hc2'].
  apply N.leb_le in Hc1, Hc2, Hc1', Hc2'.
  apply orb_true_iff in Hap as [Hap | Hap]; apply N.ltb_lt in Hap; lia.
Qed.

Lemma in_ranges_within r1 r2 c :
  ranges_within r1 r2 = true →
  Py.in_ranges r1 c = true → Py.in_ranges r2 c = true.
Proof.
  unfold ranges_within, Py.in_ranges. rewrite forallb_forall.
  intros Hin H1. apply existsb_exists in H1 as (a & Ha & Hc).
  specialize (Hin a Ha). apply existsb_exists in Hin as (b & Hb & Hab).
  apply existsb_exists. exists b. split; [done|].
  apply andb_true_iff in Hc as [Hc1 Hc2], Hab as [Hab1 Hab2].
  apply N.leb_le in Hc1, Hc2, Hab1, Hab2.
  apply andb_true_iff. split; apply N.leb_le; lia.
Qed.

Lemma decimal_in_ranges ranges c :
  is_Some (Py.decimal_in ranges c) ↔ Py.in_ranges ranges c = true.
Proof.
  induction ranges as [|r ranges IH]; simpl.
  - split; [by intros [??] | done].
  - destruct ((r.1 <=? c)%N && (c <=? r.2)%N); simpl; [|done].
    split; [done | by eexists].
Qed.

Lemma decimal_is_digit c d : Py.decimal c = Some d → is_digit c.
Proof. intros H. apply decimal_in_ranges. by eexists. Qed.

Lemma is_digit_decimal c : is_digit c → ∃ d, Py.decimal c = Some d.
Proof. intros H. by apply decimal_in_ranges in H as [d Hd]; eexists. Qed.

Lemma is_digit_not_space c : is_digit c → Py.isspace c = false.
Proof. apply in_ranges_apart. by vm_compute. Qed.

Lemma is_digit_not_int_space c : is_digit c → Py.int_space c = false.
Proof. apply in_ranges_apart. by vm_compute. Qed.

Lemma is_digit_not_mark c : is_digit c → c ≠ 95%N ∧ c ≠ 43%N ∧ c ≠ 45%N.
Proof.
  intros Hd.
  assert (Py.in_ranges [(43, 43); (45, 45); (95, 95)]%N c = false) as H.
  { revert Hd. apply in_ranges_apart. by vm_compute. }
  repeat split; intros ->; by vm_compute in H.
Qed.

Lemma int_space_isspace c : Py.int_space c = true → Py.isspace c = true.
Proof. apply in_ranges_within. by vm_compute. Qed.

Lemma lstrip_spec l : ∃ sp, l = sp ++ Py.lstrip l ∧ spaces sp.
Proof.
  induction l as [|c l (sp & IH & Hsp)]; simpl.
  - exists []. split; [done | constructor].
  - destruct (Py.isspace c) eqn:Hc.
    + exists (c :: sp). split; [simpl; by f_equal | by constructor].
    + exists []. split; [done | constructor].
Qed.

Lemma strip_spec l :
  ∃ sp1 sp2, l = sp1 ++ Py.strip l ++ sp2 ∧ spaces sp1 ∧ spaces sp2.
Proof.
  unfold Py.strip.
  destruct (lstrip_spec l) as (sp1 & Hl & Hsp1).
  destruct (lstrip_spec (rev (Py.lstrip l))) as (sp & Hr & Hsp).
  exists sp1, (rev sp). split; [|split; [done | by apply Forall_rev]].
  rewrite <- rev_app_distr, <- Hr, rev_involutive. exact Hl.
Qed.

Lemma skip_space_spec l : ∃ sp, l = sp ++ Py.skip_space l ∧ spaces sp.
Proof.
  induction l as [|c l (sp & IH & Hsp)]; simpl.
  - exists []. split; [done | constructor].
  - destruct (Py.int_space c) eqn:Hc.
    + exists (c :: sp). split; [simpl; by f_equal|].
      constructor; [by apply int_space_isspace | done].
    + exists []. split; [done | constructor].
Qed.

Lemma lstrip_spaces_app sp l : spaces sp → Py.lstrip (sp ++ l) = Py.lstrip l.
Proof.
  induction 1 as [|c sp Hc _ IH]; [done|]. simpl. by rewrite Hc.
Qed.

Lemma digit_count_cons_digit c l :
  is_digit c → digit_count (c :: l) = S (digit_count l).
Proof. intros Hc. unfold digit_count. cbn [List.filter]. by rewrite Hc. Qed.

Lemma digit_count_cons_other c l :
  Py.in_ranges Py.decimal_ranges c = false → digit_count (c :: l) = digit_count l.
Proof. intros Hc. unfold digit_count. cbn [List.filter]. by rewrite Hc. Qed.

Lemma digit_count_app l1 l2 :
  digit_count (l1 ++ l2) = (digit_count l1 + digit_count l2)%nat.
Proof. unfold digit_count. by rewrite List.filter_app, length_app. Qed.

Lemma underscore_not_digit : Py.in_ranges Py.decimal_ranges 95%N = false.
Proof. by vm_compute. Qed.

Lemma scan_sound l : ∀ acc digits after n digits' rest,
  Py.scan acc digits after l = Some (n, digits', rest) →
  ∃ run,
    l = run ++ rest
    ∧ digits' = (digits + digit_count run)%nat
    ∧ (digit_groups run
       ∨ (after = false
          ∧ (run = [] ∨ ∃ run', run = 95%N :: run' ∧ digit_groups run'))).
Proof.
  induction l as [|c l IH]; intros acc digits after n digits' rest; simpl.
  - destruct after; [done|]. intros [= <- <- <-].
    exists []. split; [done|]. split; [unfold digit_count; simpl; lia|]. auto.
  - destruct (N.eqb_spec c 95) as [->|Hc].
    + destruct after; [done|]. intros H.
      apply IH in H as (run & -> & -> & [H | [? _]]); [|done].
      exists (95%N :: run). split; [done|].
      split; [by rewrite digit_count_cons_other by apply underscore_not_digit|].
      right. split; [done|]. right. eauto.
    + destruct (Py.decimal c) as [d|] eqn:Hd.
      * intros H. apply decimal_is_digit in Hd.
        apply IH in H as (run & -> & -> & Hrun).
        exists (c :: run). split; [done|].
        split; [rewrite digit_count_cons_digit by done; lia|].
        left. destruct Hrun as [H | [_ [-> | (run' & -> & H)]]].
        -- by apply digit_next.
        -- by apply digit_last.
        -- by apply digit_sep.
      * destruct after; [done|]. intros [= <- <- <-].
        exists []. split; [done|]. split; [unfold digit_count; simpl; lia|]. auto.
Qed.

Lemma scan_complete run : digit_groups run →
  ∀ acc digits after,
    ∃ n, Py.scan acc digits after run = Some (n, (digits + digit_count run)%nat, []).
Proof.
  induction 1 as [c Hc | c l Hc _ IH | c l Hc _ IH]; intros acc digits after;
    destruct (is_digit_not_mark c Hc) as (Hu & _ & _);
    destruct (is_digit_decimal c Hc) as [d Hd];
    cbn [Py.scan]; apply N.eqb_neq in Hu; rewrite Hu, Hd.
  - cbn [Py.scan]. eexists. do 3 f_equal.
    rewrite digit_count_cons_digit by done. unfold digit_count. simpl. lia.
  - destruct (IH (10 * acc + d) (S digits) false) as [n ->]. eexists.
    do 3 f_equal. rewrite digit_count_cons_digit by done. lia.
  - cbn [Py.scan]. rewrite N.eqb_refl.
    destruct (IH (10 * acc + d) (S digits) true) as [n ->]. eexists.
    do 3 f_equal. rewrite digit_count_cons_digit by done.
    rewrite digit_count_cons_other by apply underscore_not_digit. lia.
Qed.

Lemma digit_groups_head l : digit_groups l → ∃ c t, l = c :: t ∧ is_digit c.
Proof. destruct 1; eauto. Qed.

Lemma digit_groups_last l : digit_groups l → ∃ t d, l = t ++ [d] ∧ is_digit d.
Proof.
  induction 1 as [c Hc | c l Hc _ (t & d & -> & Hd) | c l Hc _ (t & d & -> & Hd)].
  - by exists [], c.
  - by exists (c :: t), d.
  - by exists (c :: 95%N :: t), d.
Qed.

Lemma digit_groups_count l : digit_groups l → (0 < digit_count l)%nat.
Proof.
  intros H. destruct (digit_groups_head l H) as (c & t & -> & Hc).
  rewrite digit_count_cons_digit by done. lia.
Qed.

Lemma forallb_int_space_spaces l : forallb Py.int_space l = true → spaces l.
Proof.
  rewrite forallb_forall. intros H. apply Forall_forall. intros c Hc.
  apply int_space_isspace, H. by apply list_elem_of_In.
Qed.

Lemma sign_spec l :
  (∃ c l', l = c :: l' ∧ (c = 43%N ∨ c = 45%N) ∧ Py.sign l = (bool_decide (c = 45%N), l'))
  ∨ (Py.sign l = (false, l) ∧ ∀ c l', l = c :: l' → c ≠ 43%N ∧ c ≠ 45%N).
Proof.
  destruct l as [|c l']; [right; split; [done | by intros]|]. simpl.
  destruct (N.eqb_spec c 43) as [->|H1]; [left; eexists _, _; eauto|].
  destruct (N.eqb_spec c 45) as [->|H2]; [left; eexists _, _; eauto|].
  right. split; [done|]. by intros ? ? [= <- <-].
Qed.

Lemma magnitude_not_underscore l :
  (∀ t, l ≠ 95%N :: t) →
  Py.magnitude l
  = match Py.scan 0 0 false l with
    | None => inr Py.InvalidLiteral
    | Some (n, digits, rest) =>
        if (Py.max_str_digits <? digits)%nat then inr (Py.TooManyDigits digits)
        else if (digits =? 0)%nat then inr Py.InvalidLiteral
        else if forallb Py.int_space rest then inl n
        else inr Py.InvalidLiteral
    end.
Proof.
  intros Hhead. unfold Py.magnitude.
  destruct l as [|c t]; [done|].
  destruct (N.eqb_spec c 95) as [->|Hc]; [by destruct (Hhead t)|].
  destruct c as [|p]; [done|].
  do 7 (destruct p as [p|p|]; try done).
Qed.

Lemma magnitude_sound l n :
  Py.magnitude l = inl n →
  ∃ run post, l = run ++ post ∧ spaces post ∧ digit_groups run
              ∧ (digit_count run ≤ Py.max_str_digits)%nat.
Proof.
  intros H.
  assert (∀ t, l ≠ 95%N :: t) as Hhead by (by intros t ->).
  rewrite (magnitude_not_underscore l Hhead) in H.
  destruct (Py.scan 0 0 false l) as [[[m digits] rest]|] eqn:Hscan; [|done].
  destruct (Nat.ltb_spec Py.max_str_digits digits) as [|Hmax]; [done|].
  destruct (Nat.eqb_spec digits 0) as [|Hzero]; [done|].
  destruct (forallb Py.int_space rest) eqn:Hrest; [|done].
  apply scan_sound in Hscan as (run & -> & -> & Hrun).
  exists run, rest. split; [done|].
  split; [by apply forallb_int_space_spaces|].
  simpl in Hmax, Hzero.
  destruct Hrun as [Hrun | [_ [-> | (run' & -> & _)]]].
  - done.
  - unfold digit_count in Hzero. done.
  - by destruct (Hhead (run' ++ rest)).
Qed.

Lemma int_literal_sound s n :
  Py.int_literal s = inl n →
  ∃ pre body post,
    s = pre ++ body ++ post ∧ spaces pre ∧ spaces post
    ∧ integer_literal body ∧ (digit_count body ≤ Py.max_str_digits)%nat.
Proof.
  unfold Py.int_literal.
  destruct (skip_space_spec s) as (pre & Hs & Hpre).
  destruct (Py.sign (Py.skip_space s)) as [negative l] eqn:Hsign.
  destruct (Py.magnitude l) as [m|e] eqn:Hm; [|done]. intros _.
  apply magnitude_sound in Hm as (run & post & -> & Hpost & Hrun & Hcount).
  destruct (sign_spec (Py.skip_space s))
    as [(c & l' & Hl & Hc & Hsign') | [Hsign' _]]; rewrite Hsign in Hsign'.
  - injection Hsign' as _ <-.
    exists pre, (c :: run), post. rewrite Hs at 1. rewrite Hl.
    split; [done|]. do 2 (split; [done|]).
    split; [destruct Hc as [-> | ->]; by constructor|].
    rewrite digit_count_cons_other; [done|].
    destruct Hc as [-> | ->]; by vm_compute.
  - injection Hsign' as _ Hl.
    exists pre, run, post. rewrite Hs at 1. rewrite <- Hl.
    split; [done|]. do 2 (split; [done|]). split; [by constructor | done].
Qed.

Lemma int_strip_numeric s n : int_or_None (Py.strip s) = Some n → numeric s.
Proof.
  unfold int_or_None.
  destruct (Py.int_literal (Py.strip s)) as [m|e] eqn:H; [|done]. intros _.
  apply int_literal_sound in H as (pre & body & post & Hs & Hpre & Hpost & Hlit & Hn).
  destruct (strip_spec s) as (a1 & a2 & Ha & Ha1 & Ha2).
  exists (a1 ++ pre), body, (post ++ a2).
  split; [|split; [by apply Forall_app | split; [by apply Forall_app | done]]].
  rewrite Ha at 1. rewrite Hs. by rewrite <- !app_assoc.
Qed.

Lemma integer_literal_head l :
  integer_literal l →
  ∃ c t, l = c :: t ∧ (is_digit c ∨ c = 43%N ∨ c = 45%N).
Proof.
  destruct 1 as [l H | l H | l H]; [|eauto 6..].
  apply digit_groups_head in H as (c & t & -> & H). eauto.
Qed.

Lemma integer_literal_last l :
  integer_literal l → ∃ t d, l = t ++ [d] ∧ is_digit d.
Proof.
  destruct 1 as [l H | l H | l H];
    apply digit_groups_last in H as (t & d & -> & Hd).
  - by exists t, d.
  - by exists (43%N :: t), d.
  - by exists (45%N :: t), d.
Qed.

Lemma literal_head_not_space c :
  is_digit c ∨ c = 43%N ∨ c = 45%N →
  Py.isspace c = false ∧ Py.int_space c = false.
Proof.
  intros [H | [-> | ->]]; [|by vm_compute..].
  split; [by apply is_digit_not_space | by apply is_digit_not_int_space].
Qed.


Lemma strip_padded pre body post :
  spaces pre → spaces post → integer_literal body →
  Py.strip (pre ++ body ++ post) = body.
Proof.
  intros Hpre Hpost Hlit. unfold Py.strip.
  rewrite lstrip_spaces_app by done.
  destruct (integer_literal_head _ Hlit) as (c & t & Hbody & Hc).
  apply literal_head_not_space in Hc as [Hcs _].
  assert (Py.lstrip (body ++ post) = body ++ post) as ->.
  { rewrite Hbody. simpl. by rewrite Hcs. }
  rewrite rev_app_distr, lstrip_spaces_app by (by apply Forall_rev).
  destruct (integer_literal_last _ Hlit) as (t' & d & Hbody' & Hd).
  rewrite Hbody', rev_app_distr. simpl.
  rewrite (is_digit_not_space d Hd). simpl.
  by rewrite rev_involutive.
Qed.

Lemma magnitude_complete run :
  digit_groups run → (digit_count run ≤ Py.max_str_digits)%nat →
  ∃ n, Py.magnitude run = inl n.
Proof.
  intros Hrun Hmax.
  destruct (scan_complete run Hrun 0 0%nat false) as [n Hn].
  pose proof (digit_groups_count run Hrun) as Hpos.
  rewrite magnitude_not_underscore.
  2:{ intros t ->. destruct (digit_groups_head _ Hrun) as (d & t' & [= <- <-] & Hd).
      by destruct (is_digit_not_mark _ Hd) as (Hu & _). }
  rewrite Nat.add_0_l in Hn. rewrite Hn.
  destruct (Nat.ltb_spec Py.max_str_digits (digit_count run)); [lia|].
  destruct (Nat.eqb_spec (digit_count run) 0); [lia|].
  by eexists.
Qed.

Lemma int_literal_complete body :
  integer_literal body →
  (digit_count body ≤ Py.max_str_digits)%nat →
  ∃ n, Py.int_literal body = inl n.
Proof.
  intros Hlit Hcount. unfold Py.int_literal.
  destruct (integer_literal_head _ Hlit) as (c & t & Hbody & Hc).
  apply literal_head_not_space in Hc as [_ Hcs].
  assert (Py.skip_space body = body) as ->.
  { rewrite Hbody. simpl. by rewrite Hcs. }
  clear Hbody Hcs c t.
  destruct Hlit as [run H | run H | run H].
  - destruct (digit_groups_head run H) as (d & t' & Hrun' & Hd).
    destruct (is_digit_not_mark d Hd) as (_ & Hp & Hm).
    assert (Py.sign run = (false, run)) as ->.
    { rewrite Hrun'. simpl. apply N.eqb_neq in Hp, Hm. by rewrite Hp, Hm. }
    destruct (magnitude_complete run H Hcount) as [n ->]. by eexists.
  - cbn [Py.sign N.eqb Pos.eqb].
    rewrite digit_count_cons_other in Hcount by (by vm_compute).
    destruct (magnitude_complete run H Hcount) as [n ->]. by eexists.
  - cbn [Py.sign N.eqb Pos.eqb].
    rewrite digit_count_cons_other in Hcount by (by vm_compute).
    destruct (magnitude_complete run H Hcount) as [n ->]. by eexists.
Qed.

Lemma numeric_int_strip s : numeric s → ∃ n, int_or_None (Py.strip s) = Some n.
Proof.
  intros (pre & body & post & -> & Hpre & Hpost & Hlit & Hcount).
  rewrite strip_padded by done. unfold int_or_None.
  destruct (int_literal_complete body Hlit Hcount) as [n ->]. by eexists.
Qed.




(** ** Session state of the client *)


Lemma session_held_not_absent w : session_held w → ¬ session_absent w.
Proof. intros [[v Hv] _] [Ha _]. congruence. Qed.



(** * The claims of the specification *)

(** ** The table *)

(** Whatever records are given, every cell of the description column is
    the reference to the list [descriptions], which after the loop holds
    nothing but references to itself. *)
Lemma generate_csv_description_column records taxid w rs :
  heap w !! records = Some (VRecord <$> rs) →
  ∃ w', generate_csv records taxid w = (Ok tt, w')
    ∧ files w' = files w ++ [CsvFile (csv_path taxid) (csv_frame (length (heap w)) rs)]
    ∧ heap w' !! S (S (length (heap w)))
      = Some (replicate (length rs) (VRef (S (S (length (heap w))))))
    ∧ ∀ i r, rs !! i = Some r →
        df_cell (csv_frame (length (heap w)) rs) "description" i
        = Some (VRef (S (S (length (heap w))))).
Proof.
  intros Hrec. eexists. split; [by apply generate_csv_run|].
  cbn [files heap]. split; [done|]. split; [apply lookup_end_2|].
  intros i r Hi. unfold df_cell, csv_frame. cbn.
  apply lookup_replicate_2. by eapply lookup_lt_Some.
Qed.

(** C1, evaluated on a list of three records.  The claim asks that the
    description cell of every row be the description string of the record
    of that row.  [generate_csv] instead appends the list [descriptions] to
    itself, so all three cells are the same reference (to the fourth list
    of the store, which holds three references to itself), and the cell of
    the first row is not the description of the first record. *)
Theorem generate_csv_description_is_the_list_itself :
  ∃ w' df,
    generate_csv 0%nat "9606" Sample.with_records = (Ok tt, w')
    ∧ files w' = [CsvFile "taxid_9606_attributes.csv" df]
    ∧ df_cell df "description" 0%nat = Some (VRef 3%nat)
    ∧ df_cell df "description" 1%nat = Some (VRef 3%nat)
    ∧ df_cell df "description" 2%nat = Some (VRef 3%nat)
    ∧ heap w' !! 3%nat = Some [VRef 3%nat; VRef 3%nat; VRef 3%nat]
    ∧ df_cell df "description" 0%nat
      ≠ Some (VStr (SeqRecord.description Sample.rec_a)).
Proof.
  eexists _, _. split; [vm_compute; reflexivity|].
  repeat split; try (vm_compute; reflexivity). vm_compute. discriminate.
Qed.

(** The frame that [generate_csv] hands to [to_csv] has the columns
    "accession number", "sequence length" and "description", in this order;
    every column, and the index, has one entry per record; and the first two
    columns hold the identifiers and sequence lengths of the records, in
    the order of the list. *)
Lemma generate_csv_frame records taxid w rs :
  heap w !! records = Some (VRecord <$> rs) →
  ∃ w' df,
    generate_csv records taxid w = (Ok tt, w')
    ∧ files w' = files w ++ [CsvFile ("taxid_" +:+ taxid +:+ "_attributes.csv") df]
    ∧ (df_columns df).*1 = ["accession number"; "sequence length"; "description"]
    ∧ Forall (λ c, length c.2 = length rs) (df_columns df)
    ∧ length (df_index df) = length rs
    ∧ column "accession number" (df_columns df) = Some (VStr ∘ SeqRecord.id <$> rs)
    ∧ column "sequence length" (df_columns df) = Some (VInt ∘ len_seq <$> rs).
Proof.
  intros Hrec. eexists _, (csv_frame (length (heap w)) rs).
  split; [by apply generate_csv_run|].
  cbn [files]. split; [done|]. split; [done|].
  split.
  { unfold csv_frame. cbn [df_columns].
    repeat constructor; cbn; by rewrite ?length_fmap, ?length_replicate. }
  split; [|done].
  unfold csv_frame. cbn [df_index]. by rewrite length_fmap, length_seq.
Qed.

(** C4, as stated, does not hold of the file: [to_csv] is called with its
    defaults and writes the index of the frame as well.  For the three
    records of the sample the file has four lines of four fields each; the
    header starts with an empty field, above the row labels, and is not the
    list of the three column names. *)
Lemma generate_csv_file_has_an_index_field :
  ∃ w' df,
    generate_csv 0%nat "9606" Sample.with_records = (Ok tt, w')
    ∧ files w' = [CsvFile "taxid_9606_attributes.csv" df]
    ∧ csv_header df
      = [VStr ""; VStr "accession number"; VStr "sequence length";
         VStr "description"]
    ∧ csv_header df
      ≠ [VStr "accession number"; VStr "sequence length"; VStr "description"]
    ∧ length (csv_lines df) = 4%nat
    ∧ Forall (λ line, length line = 4%nat) (csv_lines df).
Proof.
  eexists _, _. split; [vm_compute; reflexivity|].
  split; [vm_compute; reflexivity|].
  split; [vm_compute; reflexivity|].
  split; [vm_compute; discriminate|].
  split; [vm_compute; reflexivity|].
  vm_compute. repeat constructor.
Qed.

(** C4, amended.  For every list of records, [generate_csv] writes one
    file, named after the taxonomic identifier.  Its header line has four
    fields: an empty one, above the row labels, then "accession number",
    "sequence length" and "description".  Below the header there is exactly
    one line per record, in the order of the list: the line of a record
    holds its position in the list, counted from zero, then its identifier,
    the length of its sequence, and a description field. *)
Theorem generate_csv_file_lines records taxid w rs :
  heap w !! records = Some (VRecord <$> rs) →
  ∃ w' df rows,
    generate_csv records taxid w = (Ok tt, w')
    ∧ files w' = files w ++ [CsvFile ("taxid_" +:+ taxid +:+ "_attributes.csv") df]
    ∧ csv_lines df
      = [VStr ""; VStr "accession number"; VStr "sequence length";
         VStr "description"] :: rows
    ∧ length rows = length rs
    ∧ ∀ i r, rs !! i = Some r →
        ∃ d, rows !! i
             = Some [VInt (Z.of_nat i); VStr (SeqRecord.id r);
                     VInt (len_seq r); d].
Proof.
  intros Hrec.
  eexists _, (csv_frame (length (heap w)) rs), _.
  split; [by apply generate_csv_run|].
  cbn [files]. split; [done|]. split; [reflexivity|].
  split.
  { unfold csv_frame. cbn [df_index].
    by rewrite length_imap, length_fmap, length_seq. }
  intros i r Hi.
  assert (i < length rs)%nat as Hlt by (by eapply lookup_lt_Some).
  eexists.
  rewrite list_lookup_imap. unfold csv_frame at 2. cbn [df_index].
  rewrite list_lookup_fmap, lookup_seq_lt by done. cbn [fmap option_fmap option_map].
  unfold csv_row, csv_frame. cbn [df_columns fmap list_fmap snd].
  rewrite !list_lookup_fmap, Hi. reflexivity.
Qed.

Lemma generate_csv_file_lines_witness :
  heap Sample.with_records !! 0%nat
  = Some (VRecord <$> [Sample.rec_a; Sample.rec_b; Sample.rec_c])
  ∧ ∃ w' df rows,
      generate_csv 0%nat "9606" Sample.with_records = (Ok tt, w')
      ∧ files w' = files Sample.with_records
                   ++ [CsvFile ("taxid_" +:+ "9606" +:+ "_attributes.csv") df]
      ∧ csv_lines df
        = [VStr ""; VStr "accession number"; VStr "sequence length";
           VStr "description"] :: rows
      ∧ length rows = length [Sample.rec_a; Sample.rec_b; Sample.rec_c]
      ∧ ∀ i r, [Sample.rec_a; Sample.rec_b; Sample.rec_c] !! i = Some r →
          ∃ d, rows !! i
               = Some [VInt (Z.of_nat i); VStr (SeqRecord.id r);
                       VInt (len_seq r); d].
Proof.
  split; [reflexivity|].
  apply (generate_csv_file_lines 0%nat "9606" Sample.with_records
           [Sample.rec_a; Sample.rec_b; Sample.rec_c]).
  reflexivity.
Defined.

(** ** The filter *)


(** C2.  For every sequence of parsed records and every pair of optional
    bounds, the filtering loop of [main] appends to [filtered_records]
    exactly the records whose sequence length is at least the minimum (when
    there is one) and at most the maximum (when there is one), both ends
    included, in the order in which they were parsed; the loop ends normally
    when the parser does. *)
Theorem filter_records_keeps_the_range min_len max_len filtered_records rs oe w xs :
  heap w !! filtered_records = Some xs →
  ∃ kept r w',
    filter_records min_len max_len filtered_records (rs, oe) w = (r, w')
    ∧ heap w' !! filtered_records = Some (xs ++ (VRecord <$> kept))
    ∧ kept = filter (in_range min_len max_len) rs
    ∧ (∀ x, x ∈ kept ↔
            x ∈ rs
            ∧ (∀ m, min_len = Some m → m ≤ len_seq x)
            ∧ (∀ m, max_len = Some m → len_seq x ≤ m))
    ∧ kept `sublist_of` rs
    ∧ (oe = None → r = Ok tt).
Proof.
  intros Hl. eexists (filter (in_range min_len max_len) rs), _, _.
  split; [by eapply filter_records_run|].
  split.
  { cbn [heap set_heap]. apply list_lookup_insert_eq. by eapply lookup_lt_Some. }
  split; [done|]. split.
  { intros x. rewrite list_elem_of_filter. unfold in_range, at_least, at_most.
    destruct min_len as [a|], max_len as [b|];
      (split;
       [ intros [[Ha Hb] Hx]; (split; [done|]); split; intros m Hm; by simplify_eq
       | intros (Hx & Ha & Hb); split; [split|done]; eauto ]). }
  split; [apply sublist_filter | by intros ->].
Qed.

Lemma filter_records_keeps_the_range_witness :
  heap Sample.with_records !! 0%nat
    = Some [VRecord Sample.rec_a; VRecord Sample.rec_b; VRecord Sample.rec_c]
  ∧ ∃ kept r w',
      filter_records (Some 4) None 0%nat ([Sample.rec_b; Sample.rec_c], None)
        Sample.with_records = (r, w')
      ∧ heap w' !! 0%nat
        = Some ([VRecord Sample.rec_a; VRecord Sample.rec_b; VRecord Sample.rec_c]
                ++ (VRecord <$> kept))
      ∧ kept = filter (in_range (Some 4) None) [Sample.rec_b; Sample.rec_c]
      ∧ (∀ x, x ∈ kept ↔
              x ∈ [Sample.rec_b; Sample.rec_c]
              ∧ (∀ m, Some 4 = Some m → m ≤ len_seq x)
              ∧ (∀ m, @None Z = Some m → len_seq x ≤ m))
      ∧ kept `sublist_of` [Sample.rec_b; Sample.rec_c]
      ∧ (@None exn = None → r = Ok tt).
Proof.
  split; [reflexivity|].
  apply (filter_records_keeps_the_range (Some 4) None 0%nat
           [Sample.rec_b; Sample.rec_c] None Sample.with_records).
  reflexivity.
Defined.

(** ** The chart *)

(** C3.  For every list of records, the points [generate_chart] plots are
    the records in ascending order of sequence length (every plotted record
    is at most as long as every later one); the plotted sequence is a
    rearrangement of the input in which records of equal length keep their
    relative order; and the list object of the caller, like every list that
    existed before the call, is left as it was. *)
Theorem generate_chart_plots_stably_sorted_copy records taxid w rs :
  heap w !! records = Some (VRecord <$> rs) →
  ∃ w' fig plotted,
    generate_chart records taxid w = (Ok tt, w')
    ∧ files w' = files w ++ [PngFile ("taxid_" +:+ taxid +:+ "_chart.png") fig]
    ∧ fig_x fig = VStr ∘ SeqRecord.id <$> plotted
    ∧ fig_y fig = VInt ∘ len_seq <$> plotted
    ∧ StronglySorted (key_le len_seq) plotted
    ∧ plotted ≡ₚ rs
    ∧ (∀ k, filter (λ r, len_seq r = k) plotted = filter (λ r, len_seq r = k) rs)
    ∧ heap w' !! records = Some (VRecord <$> rs)
    ∧ (∀ l, (l < length (heap w))%nat → heap w' !! l = heap w !! l).
Proof.
  intros Hrec. eexists _, (chart_figure rs), (Py.sorted len_seq rs).
  split; [by apply generate_chart_run|].
  cbn [files heap]. do 3 (split; [done|]).
  split; [apply sorted_sorted|]. split; [apply sorted_perm|].
  split; [intros k; apply sorted_stable|].
  split; [by apply lookup_app_l_Some|].
  intros l Hl. by apply lookup_app_l.
Qed.

Lemma generate_chart_plots_stably_sorted_copy_witness :
  heap Sample.with_records !! 0%nat
  = Some (VRecord <$> [Sample.rec_a; Sample.rec_b; Sample.rec_c])
  ∧ ∃ w' fig plotted,
      generate_chart 0%nat "9606" Sample.with_records = (Ok tt, w')
      ∧ files w' = files Sample.with_records
                   ++ [PngFile ("taxid_" +:+ "9606" +:+ "_chart.png") fig]
      ∧ fig_x fig = VStr ∘ SeqRecord.id <$> plotted
      ∧ fig_y fig = VInt ∘ len_seq <$> plotted
      ∧ StronglySorted (key_le len_seq) plotted
      ∧ plotted ≡ₚ [Sample.rec_a; Sample.rec_b; Sample.rec_c]
      ∧ (∀ k, filter (λ r, len_seq r = k) plotted
              = filter (λ r, len_seq r = k) [Sample.rec_a; Sample.rec_b; Sample.rec_c])
      ∧ heap w' !! 0%nat = Some (VRecord <$> [Sample.rec_a; Sample.rec_b; Sample.rec_c])
      ∧ (∀ l, (l < length (heap Sample.with_records))%nat →
              heap w' !! l = heap Sample.with_records !! l).
Proof.
  split; [reflexivity|].
  apply (generate_chart_plots_stably_sorted_copy 0%nat "9606" Sample.with_records
           [Sample.rec_a; Sample.rec_b; Sample.rec_c]).
  reflexivity.
Defined.

(** The plotted order on the sample: the short record first, then the two
    records of length eight in their original order. *)
Example generate_chart_sample :
  ∃ w', generate_chart 0%nat "9606" Sample.with_records = (Ok tt, w')
    ∧ files w' = [PngFile "taxid_9606_chart.png"
                    (mkFigure [VStr "NM_0002.1"; VStr "NM_0001.1"; VStr "NM_0003.1"]
                              [VInt 3; VInt 8; VInt 8]
                              "o" "Accession number" "Seq length")].
Proof. eexists. split; vm_compute; reflexivity. Qed.

(** ** The fetch *)

Lemma min_500 n : Py.min n 500 = if n <=? 500 then n else 500.
Proof.
  unfold Py.min.
  destruct (Z.ltb_spec 500 n), (Z.leb_spec n 500); lia || reflexivity.
Qed.

(** C5.  When the client holds a session, [fetch_records] makes exactly one
    remote call, and the batch size it asks for is the requested number of
    records when that is at most 500, and 500 otherwise. *)
Theorem fetch_records_caps_the_batch sv start max_records w webenv query_key :
  self_dict w !! "webenv" = Some webenv →
  self_dict w !! "query_key" = Some query_key →
  ∃ r w',
    fetch_records sv start max_records w = (r, w')
    ∧ requests w'
      = requests w
        ++ [EfetchNucleotide start (if max_records <=? 500 then max_records else 500)
              webenv query_key].
Proof.
  intros Hw Hq. rewrite (fetch_records_session _ _ _ _ _ _ Hw Hq).
  cbn zeta. rewrite min_500.
  destruct (efetch_nucleotide _ _ _ _ _); by eexists _, _.
Qed.

Lemma fetch_records_caps_the_batch_witness :
  self_dict Sample.in_session !! "webenv" = Some (VStr "MCID_1")
  ∧ self_dict Sample.in_session !! "query_key" = Some (VStr "1")
  ∧ ∃ r w',
      fetch_records Sample.service 0 2000 Sample.in_session = (r, w')
      ∧ requests w'
        = requests Sample.in_session
          ++ [EfetchNucleotide 0 (if 2000 <=? 500 then 2000 else 500)
                (VStr "MCID_1") (VStr "1")].
Proof.
  split; [vm_compute; reflexivity|]. split; [vm_compute; reflexivity|].
  apply (fetch_records_caps_the_batch Sample.service 0 2000 Sample.in_session);
    vm_compute; reflexivity.
Defined.

(** C6, as stated, does not hold: on a client that never searched,
    [fetch_records] raises nothing.  It returns normally, and the text it
    prints is not "no active search". *)
Lemma fetch_records_before_search_raises_nothing :
  (∃ l w', fetch_records Sample.service 0 10 (Sample.start []) = (Ok (VRef l), w')
     ∧ stdout w' = ["No search results to fetch. Run search_taxid() first."])
  ∧ ¬ (∃ e w', fetch_records Sample.service 0 10 (Sample.start []) = (Raise e, w')).
Proof.
  split.
  - eexists _, _. split; vm_compute; reflexivity.
  - intros (e & w' & H). vm_compute in H. discriminate.
Qed.

(** C6, amended.  Whenever the web environment or the query key is missing
    on the client, [fetch_records] prints "No search results to fetch. Run
    search_taxid() first.", returns without raising a list that is new (no
    list was at its place before, and every list that was there is
    unchanged) and empty, and makes no remote call and writes no file. *)
Theorem fetch_records_before_search sv start max_records w :
  no_session w →
  ∃ l w',
    fetch_records sv start max_records w = (Ok (VRef l), w')
    ∧ heap w !! l = None
    ∧ heap w' !! l = Some []
    ∧ (∀ l', (l' < length (heap w))%nat → heap w' !! l' = heap w !! l')
    ∧ stdout w'
      = stdout w ++ ["No search results to fetch. Run search_taxid() first."]
    ∧ requests w' = requests w
    ∧ files w' = files w.
Proof.
  intros Hno. eexists _, _.
  split; [by apply fetch_records_no_session|].
  cbn [heap stdout requests files].
  split; [by apply lookup_ge_None|].
  split; [apply lookup_end_0|]. split; [|done].
  intros l' Hl'. by apply lookup_app_l.
Qed.

Lemma fetch_records_before_search_witness :
  no_session (Sample.start [])
  ∧ ∃ l w',
      fetch_records Sample.service 0 10 (Sample.start []) = (Ok (VRef l), w')
      ∧ heap (Sample.start []) !! l = None
      ∧ heap w' !! l = Some []
      ∧ (∀ l', (l' < length (heap (Sample.start [])))%nat →
               heap w' !! l' = heap (Sample.start []) !! l')
      ∧ stdout w'
        = stdout (Sample.start [])
          ++ ["No search results to fetch. Run search_taxid() first."]
      ∧ requests w' = requests (Sample.start [])
      ∧ files w' = files (Sample.start []).
Proof.
  split; [left; reflexivity|].
  apply (fetch_records_before_search Sample.service 0 10 (Sample.start [])).
  left. reflexivity.
Defined.

(** ** The run of the program *)

Lemma sample_taxonomy_names sv :
  efetch_taxonomy sv "9606" = Ok Sample.taxonomy →
  taxonomy_names sv "9606" "Homo sapiens".
Proof. intros H. econstructor; [exact H | reflexivity]. Qed.

Lemma sample_search_succeeds :
  search_succeeds Sample.service "9606" "Homo sapiens" 3 "MCID_1" "1".
Proof. econstructor; try reflexivity. done. Qed.

Lemma sample_search_succeeds_down :
  search_succeeds Sample.service_down "9606" "Homo sapiens" 3 "MCID_1" "1".
Proof. econstructor; try reflexivity. done. Qed.

Lemma sample_search_count_zero : search_count_zero Sample.service_zero "9606".
Proof.
  exists (Sample.history "0").
  econstructor; [by apply sample_taxonomy_names | reflexivity..].
Qed.

(** C7.  When the search reports no match, or any step of it raises, and
    the two bounds could be read from the keyboard, [main] returns through
    its early exit: [search_taxid] gave [None], the last line printed is
    "No records found. Exiting.", and no file has been written. *)
Theorem main_stops_without_results sv w line1 line2 rest :
  stdin w = line1 :: line2 :: rest →
  search_count_zero sv "9606" ∨ search_fails sv "9606" →
  ∃ w' out,
    main sv w = (Ok NO_RESULTS, w')
    ∧ files w' = files w
    ∧ stdout w' = out ++ ["No records found. Exiting."]
    ∧ ∀ w0, ∃ w0', search_taxid sv "9606" w0 = (Ok None, w0').
Proof.
  intros Hin Hnone.
  destruct (main_no_results sv w line1 line2 rest Hin Hnone)
    as (w' & out & Hrun & Hf & _ & Hout).
  exists w', out. do 3 (split; [done|]).
  intros w0. destruct Hnone as [Hzero | Hfail].
  - destruct (search_taxid_zero sv "9606" w0 Hzero) as [o Ho]. eauto.
  - destruct (search_taxid_fails sv "9606" w0 Hfail) as (w0' & Ho & _). eauto.
Qed.

Lemma main_stops_without_results_witness :
  stdin (Sample.start ["100"; "2000"]) = [codepoints "100"; codepoints "2000"]
  ∧ (search_count_zero Sample.service_zero "9606"
     ∨ search_fails Sample.service_zero "9606")
  ∧ ∃ w' out,
      main Sample.service_zero (Sample.start ["100"; "2000"]) = (Ok NO_RESULTS, w')
      ∧ files w' = files (Sample.start ["100"; "2000"])
      ∧ stdout w' = out ++ ["No records found. Exiting."]
      ∧ ∀ w0, ∃ w0', search_taxid Sample.service_zero "9606" w0 = (Ok None, w0').
Proof.
  split; [reflexivity|].
  split; [left; apply sample_search_count_zero|].
  apply (main_stops_without_results Sample.service_zero
           (Sample.start ["100"; "2000"]) (codepoints "100") (codepoints "2000") []).
  - reflexivity.
  - left. apply sample_search_count_zero.
Defined.





(** ** The session *)

Lemma session_absent_no_session w : session_absent w → no_session w.
Proof. intros [H _]. by left. Qed.




(** A search that finds nothing and a search that raises after line 44
    leave the client without a session: the fetch that follows is turned
    away, although the web environment is stored. *)
Example run_searches_unpaired :
  ∃ w', run_searches [(Sample.service_zero, "9606"); (Edge.service_unpaired, "9606")]
          (Sample.start []) = (Ok [None; None], w')
    ∧ self_dict w' !! "webenv" = Some (VStr "MCID_2")
    ∧ no_session w'
    ∧ ∃ l w'', fetch_records Sample.service 0 5 w' = (Ok (VRef l), w'')
               ∧ heap w'' !! l = Some []
               ∧ requests w'' = requests w'.
Proof.
  eexists. split; [vm_compute; reflexivity|].
  split; [vm_compute; reflexivity|].
  split; [right; vm_compute; reflexivity|].
  eexists _, _. split; [vm_compute; reflexivity|].
  split; vm_compute; reflexivity.
Qed.

(** The two searches of the sample: the first finds nothing and stores
    nothing, the second stores the session. *)
Example run_searches_sample :
  ∃ w', run_searches [(Sample.service_zero, "9606"); (Sample.service, "9606")]
          (Sample.start []) = (Ok [None; Some 3], w')
    ∧ self_dict w' !! "webenv" = Some (VStr "MCID_1")
    ∧ self_dict w' !! "query_key" = Some (VStr "1")
    ∧ self_dict w' !! "count" = Some (VInt 3).
Proof.
  eexists. split; [vm_compute; reflexivity|].
  repeat split; vm_compute; reflexivity.
Qed.

(** ** A fetch that fails *)

(** C10.  After a successful search, when the remote fetch raises:
    [fetch_records] prints the error and returns the empty string; if the
    GenBank parser yields no entry for an empty text, [main] still runs to
    its end and writes the three files, the table with three empty columns
    and no row, the chart with no point, and the sample file with no text;
    and the empty string is of another type than the new empty list that
    [fetch_records] returns when no session is held. *)
Theorem fetch_failure_still_writes_empty_outputs sv w line1 line2 rest
    organism_name count webenv query_key e :
  stdin w = line1 :: line2 :: rest →
  search_succeeds sv "9606" organism_name count webenv query_key →
  efetch_nucleotide sv 0 5 (VStr webenv) (VStr query_key) = Raise e →
  SeqIO_parse sv "" = ([], None) →
  (∀ w1, self_dict w1 !! "webenv" = Some (VStr webenv) →
         self_dict w1 !! "query_key" = Some (VStr query_key) →
         ∃ w2, fetch_records sv 0 5 w1 = (Ok (VStr ""), w2)
               ∧ stdout w2 = stdout w1 ++ ["Error fetching records: " +:+ str_exn e]
               ∧ files w2 = files w1)
  ∧ (∃ w',
       main sv w = (Ok SAVED, w')
       ∧ files w'
         = files w
           ++ [CsvFile "taxid_9606_attributes.csv"
                 (mkDataFrame [("accession number", []);
                               ("sequence length", []);
                               ("description", [])] []);
               PngFile "taxid_9606_chart.png"
                 (mkFigure [] [] "o" "Accession number" "Seq length");
               TextFile "taxid_9606_sample.gb" ""])
  ∧ (∀ w0 start max_records, no_session w0 →
       ∃ l w0', fetch_records sv start max_records w0 = (Ok (VRef l), w0')
                ∧ heap w0' !! l = Some []
                ∧ type_of (VRef l) = TyList
                ∧ type_of (VStr "") = TyStr
                ∧ type_of (VRef l) ≠ type_of (VStr "")).
Proof.
  intros Hin Hok Hfetch Hparse. split; [|split].
  - intros w1 Hw Hq. rewrite (fetch_records_session _ _ _ _ _ _ Hw Hq).
    cbn zeta. change (Py.min 5 500) with 5. rewrite Hfetch.
    eexists. by repeat split.
  - destruct (main_saved sv w line1 line2 rest _ _ _ _ [] Hin Hok)
      as (w' & Hrun & Hfiles & _); [by rewrite Hfetch|].
    rewrite Hfetch in Hfiles. by exists w'.
  - intros w0 start max_records Hno. eexists _, _.
    split; [by apply fetch_records_no_session|].
    cbn [heap type_of]. split; [apply lookup_end_0 | done].
Qed.

Lemma fetch_failure_still_writes_empty_outputs_witness :
  stdin (Sample.start ["100"; ""]) = [codepoints "100"; codepoints ""]
  ∧ search_succeeds Sample.service_down "9606" "Homo sapiens" 3 "MCID_1" "1"
  ∧ SeqIO_parse Sample.service_down "" = ([], None)
  ∧ ∃ w',
      main Sample.service_down (Sample.start ["100"; ""]) = (Ok SAVED, w')
      ∧ files w'
        = files (Sample.start ["100"; ""])
          ++ [CsvFile "taxid_9606_attributes.csv"
                (mkDataFrame [("accession number", []);
                              ("sequence length", []);
                              ("description", [])] []);
              PngFile "taxid_9606_chart.png"
                (mkFigure [] [] "o" "Accession number" "Seq length");
              TextFile "taxid_9606_sample.gb" ""].
Proof.
  split; [reflexivity|].
  split; [apply sample_search_succeeds_down|].
  split; [reflexivity|].
  apply (fetch_failure_still_writes_empty_outputs Sample.service_down
           (Sample.start ["100"; ""]) (codepoints "100") (codepoints "") []
           "Homo sapiens" 3 "MCID_1" "1"
           (LibraryError "HTTPError" "HTTP Error 502: Bad Gateway")).
  - reflexivity.
  - apply sample_search_succeeds_down.
  - reflexivity.
  - reflexivity.
Defined.

(** ** The program on the sample *)

(** A client that was just constructed holds no session. *)
Lemma NCBIRetriever_init_session_absent email api_key w :
  self_dict w = ∅ →
  session_absent (NCBIRetriever_init email api_key w).2.
Proof.
  intros Hd. unfold session_absent, NCBIRetriever_init, setattr.
  rewrite run_bind. cbn [snd self_dict set_self_dict]. rewrite Hd.
  repeat split; by simplify_map_eq.
Qed.

(** A whole run: a minimum of 4 and no maximum; three records are found,
    the one of length 3 is dropped, and the three files are written. *)
Example main_sample :
  ∃ w', main Sample.service (Sample.start ["4"; ""]) = (Ok SAVED, w')
    ∧ heap w' !! 0%nat = Some [VRecord Sample.rec_a; VRecord Sample.rec_c]
    ∧ requests w' = [EfetchTaxonomy "9606";
                     EsearchNucleotide "txid9606[Organism]";
                     EfetchNucleotide 0 5 (VStr "MCID_1") (VStr "1")]
    ∧ files w'
      = [CsvFile "taxid_9606_attributes.csv"
           (mkDataFrame
              [("accession number", [VStr "NM_0001.1"; VStr "NM_0003.1"]);
               ("sequence length", [VInt 8; VInt 8]);
               ("description", [VRef 3%nat; VRef 3%nat])]
              [0; 1]);
         PngFile "taxid_9606_chart.png"
           (mkFigure [VStr "NM_0001.1"; VStr "NM_0003.1"] [VInt 8; VInt 8]
                     "o" "Accession number" "Seq length");
         TextFile "taxid_9606_sample.gb" "LOCUS NM_0001"].
Proof. eexists. repeat split; vm_compute; reflexivity. Qed.

(** * Further properties of the program *)

(** ** More on [search_taxid] *)

Lemma search_taxid_taxonomy_fails sv taxid e w :
  taxonomy_fails sv taxid e →
  search_taxid sv taxid w
  = (Ok None,
     mkWorld (heap w) (self_dict w) (stdin w)
       (stdout w ++ ["Searching for records with taxID: " +:+ taxid;
                     "Error searching TaxID " +:+ taxid +:+ ": " +:+ str_exn e])
       (requests w ++ [EfetchTaxonomy taxid])
       (files w)).
Proof.
  intros Hfail. unfold search_taxid.
  destruct Hfail as [e Ht | Ht | record0 records Ht Hn];
    rewrite Ht; run_monad; rewrite ?Hn; run_monad;
    by rewrite <- !app_assoc.
Qed.

Lemma search_taxid_fails_requests sv taxid w :
  search_fails sv taxid →
  ∃ w', search_taxid sv taxid w = (Ok None, w')
        ∧ (requests w' = requests w ++ [EfetchTaxonomy taxid]
           ∨ requests w' = requests w ++ [EfetchTaxonomy taxid;
                                          EsearchNucleotide (search_term taxid)]).
Proof.
  intros Hfail. unfold search_taxid. fold (search_term taxid).
  destruct Hfail as
    [ e Ht | Ht | record0 records Ht Hn
    | name e [record0 records Ht Hn] Hs
    | name results [record0 records Ht Hn] Hs Hc
    | name results c e [record0 records Ht Hn] Hs Hc Hi
    | results count [name c [record0 records Ht Hn] Hs Hc Hi] Hnz Hw
    | results count webenv [name c [record0 records Ht Hn] Hs Hc Hi] Hnz Hw Hq ];
    rewrite Ht; run_monad;
    rewrite ?Hn; run_monad; rewrite ?Hs; run_monad; rewrite ?Hc; run_monad;
    rewrite ?Hi; run_monad;
    try (apply Z.eqb_neq in Hnz; rewrite Hnz; run_monad);
    rewrite ?Hw; run_monad; rewrite ?Hq; run_monad;
    eexists; (split; [reflexivity|]); cbn [requests];
    rewrite <- ?app_assoc; auto.
Qed.

(** X1.  [search_taxid] never raises, whatever the service does: it returns
    [None] or a count that is not zero.  It makes the taxonomy lookup and at
    most the one search, in this order, and no other remote call; it reads
    nothing from the keyboard, writes no file and touches no list. *)
Theorem search_taxid_never_raises sv taxid w :
  ∃ r w',
    search_taxid sv taxid w = (Ok r, w')
    ∧ r ≠ Some 0
    ∧ (requests w' = requests w ++ [EfetchTaxonomy taxid]
       ∨ requests w' = requests w ++ [EfetchTaxonomy taxid;
                                      EsearchNucleotide ("txid" +:+ taxid +:+ "[Organism]")])
    ∧ heap w' = heap w ∧ stdin w' = stdin w ∧ files w' = files w.
Proof.
  destruct (search_dichotomy sv taxid)
    as [(name & n & we & qk & Hok) | [Hzero | Hfail]].
  - exists (Some n), (searched taxid name n we qk w).
    split; [by apply search_taxid_ok|].
    split; [destruct Hok; congruence|].
    split; [by right|]. done.
  - destruct (search_taxid_zero sv taxid w Hzero) as [out Heq].
    eexists None, _. split; [exact Heq|]. split; [done|].
    split; [by right|]. done.
  - destruct (search_taxid_fails sv taxid w Hfail) as (w' & Heq & Hh & Hi & Hf & _).
    destruct (search_taxid_fails_requests sv taxid w Hfail) as (w'' & Heq' & Hr).
    rewrite Heq in Heq'. injection Heq' as <-.
    exists None, w'. by repeat split.
Qed.

(** X2.  When every step of the search goes through with a count that is
    not zero, [search_taxid] returns that count and leaves on the client the
    web environment, the query key and the count of the answer, whatever
    was there before; no other attribute changes.  The two remote calls are
    the taxonomy lookup and the search for "txid<taxid>[Organism]", and the
    three lines printed name the identifier, the organism and the count. *)
Theorem search_taxid_stores_the_session sv taxid organism_name count webenv query_key w :
  search_succeeds sv taxid organism_name count webenv query_key →
  ∃ w',
    search_taxid sv taxid w = (Ok (Some count), w')
    ∧ self_dict w' !! "webenv" = Some (VStr webenv)
    ∧ self_dict w' !! "query_key" = Some (VStr query_key)
    ∧ self_dict w' !! "count" = Some (VInt count)
    ∧ (∀ name, name ≠ "webenv" → name ≠ "query_key" → name ≠ "count" →
               self_dict w' !! name = self_dict w !! name)
    ∧ requests w'
      = requests w ++ [EfetchTaxonomy taxid;
                       EsearchNucleotide ("txid" +:+ taxid +:+ "[Organism]")]
    ∧ stdout w'
      = stdout w ++ ["Searching for records with taxID: " +:+ taxid;
                     "Organism: " +:+ organism_name +:+ " (TaxID: " +:+ taxid +:+ ")";
                     "Found " +:+ pretty count +:+ " records"].
Proof.
  intros Hok. exists (searched taxid organism_name count webenv query_key w).
  split; [by apply search_taxid_ok|].
  unfold searched. cbn [self_dict requests stdout].
  repeat split; try done; try (by simplify_map_eq).
  intros name H1 H2 H3. by rewrite !lookup_insert_ne.
Qed.

Lemma search_taxid_stores_the_session_witness :
  search_succeeds Sample.service "9606" "Homo sapiens" 3 "MCID_1" "1"
  ∧ ∃ w',
      search_taxid Sample.service "9606" Sample.in_session = (Ok (Some 3), w')
      ∧ self_dict w' !! "webenv" = Some (VStr "MCID_1")
      ∧ self_dict w' !! "query_key" = Some (VStr "1")
      ∧ self_dict w' !! "count" = Some (VInt 3)
      ∧ (∀ name, name ≠ "webenv" → name ≠ "query_key" → name ≠ "count" →
                 self_dict w' !! name = self_dict Sample.in_session !! name)
      ∧ requests w'
        = requests Sample.in_session
          ++ [EfetchTaxonomy "9606";
              EsearchNucleotide ("txid" +:+ "9606" +:+ "[Organism]")]
      ∧ stdout w'
        = stdout Sample.in_session
          ++ ["Searching for records with taxID: " +:+ "9606";
              "Organism: " +:+ "Homo sapiens" +:+ " (TaxID: " +:+ "9606" +:+ ")";
              "Found " +:+ pretty 3 +:+ " records"].
Proof.
  split; [apply sample_search_succeeds|].
  apply (search_taxid_stores_the_session Sample.service "9606" "Homo sapiens" 3
           "MCID_1" "1" Sample.in_session).
  apply sample_search_succeeds.
Defined.

(** X3.  When the search goes through and the count is zero,
    [search_taxid] prints "No records found for <organism>", returns [None]
    and leaves every attribute of the client as it was, also when the answer
    carries a web environment and a query key. *)
Theorem search_taxid_zero_count_stores_nothing sv taxid organism_name results c w :
  taxonomy_names sv taxid organism_name →
  esearch_nucleotide sv (search_term taxid) = Ok results →
  results !! "Count" = Some c →
  Py.int c = Ok 0 →
  search_taxid sv taxid w
  = (Ok None,
     mkWorld (heap w) (self_dict w) (stdin w)
       (stdout w ++ ["Searching for records with taxID: " +:+ taxid;
                     "Organism: " +:+ organism_name +:+ " (TaxID: " +:+ taxid +:+ ")";
                     "No records found for " +:+ organism_name])
       (requests w ++ [EfetchTaxonomy taxid; EsearchNucleotide (search_term taxid)])
       (files w)).
Proof.
  intros [record0 records Ht Hn] Hs Hc Hi.
  unfold search_taxid. fold (search_term taxid).
  rewrite Ht, Hs. run_monad. rewrite Hn. run_monad. rewrite Hc. run_monad.
  rewrite Hi. run_monad.
  by rewrite <- !app_assoc.
Qed.

Lemma search_taxid_zero_count_stores_nothing_witness :
  taxonomy_names Sample.service_zero "9606" "Homo sapiens"
  ∧ search_taxid Sample.service_zero "9606" Sample.in_session
    = (Ok None,
       mkWorld (heap Sample.in_session) (self_dict Sample.in_session)
         (stdin Sample.in_session)
         (stdout Sample.in_session
          ++ ["Searching for records with taxID: " +:+ "9606";
              "Organism: " +:+ "Homo sapiens" +:+ " (TaxID: " +:+ "9606" +:+ ")";
              "No records found for " +:+ "Homo sapiens"])
         (requests Sample.in_session
          ++ [EfetchTaxonomy "9606"; EsearchNucleotide (search_term "9606")])
         (files Sample.in_session)).
Proof.
  split; [by apply sample_taxonomy_names|].
  apply (search_taxid_zero_count_stores_nothing Sample.service_zero "9606"
           "Homo sapiens" (Sample.history "0") "0" Sample.in_session).
  - by apply sample_taxonomy_names.
  - reflexivity.
  - reflexivity.
  - reflexivity.
Defined.

(** X4.  When the taxonomy lookup raises, returns no record, or returns a
    record without a scientific name, [search_taxid] prints the error and
    returns [None] without ever sending the search: the taxonomy lookup is
    the only remote call, and no attribute of the client changes. *)
Theorem search_taxid_unknown_taxid_sends_no_search sv taxid e w :
  taxonomy_fails sv taxid e →
  ∃ w',
    search_taxid sv taxid w = (Ok None, w')
    ∧ requests w' = requests w ++ [EfetchTaxonomy taxid]
    ∧ self_dict w' = self_dict w
    ∧ stdout w'
      = stdout w ++ ["Searching for records with taxID: " +:+ taxid;
                     "Error searching TaxID " +:+ taxid +:+ ": " +:+ str_exn e].
Proof.
  intros Hfail. eexists. split; [by apply search_taxid_taxonomy_fails|]. done.
Qed.

Lemma search_taxid_unknown_taxid_sends_no_search_witness :
  taxonomy_fails Edge.service_unknown "0" (IndexError "list index out of range")
  ∧ ∃ w',
      search_taxid Edge.service_unknown "0" (Sample.start []) = (Ok None, w')
      ∧ requests w' = requests (Sample.start []) ++ [EfetchTaxonomy "0"]
      ∧ self_dict w' = self_dict (Sample.start [])
      ∧ stdout w'
        = stdout (Sample.start [])
          ++ ["Searching for records with taxID: " +:+ "0";
              "Error searching TaxID " +:+ "0" +:+ ": "
              +:+ str_exn (IndexError "list index out of range")].
Proof.
  split; [by apply taxonomy_fails_empty|].
  apply (search_taxid_unknown_taxid_sends_no_search Edge.service_unknown "0"
           (IndexError "list index out of range") (Sample.start [])).
  by apply taxonomy_fails_empty.
Defined.

(** X5.  When the answer has a count that is not zero and a web
    environment but no query key, [search_taxid] returns [None] after
    reporting the missing key, yet the web environment of that answer has
    already replaced the one on the client, while the query key and the
    count of the client are the old ones.  A client that held a session
    therefore still passes the guard of [fetch_records], and its next fetch
    sends the new web environment together with the old query key. *)
Theorem search_taxid_missing_query_key_overwrites_webenv
    sv taxid organism_name results c count webenv w :
  taxonomy_names sv taxid organism_name →
  esearch_nucleotide sv (search_term taxid) = Ok results →
  results !! "Count" = Some c →
  Py.int c = Ok count →
  count ≠ 0 →
  results !! "WebEnv" = Some webenv →
  results !! "QueryKey" = None →
  ∃ w' out,
    search_taxid sv taxid w = (Ok None, w')
    ∧ self_dict w' = <["webenv" := VStr webenv]> (self_dict w)
    ∧ stdout w' = out ++ ["Error searching TaxID " +:+ taxid +:+ ": 'QueryKey'"]
    ∧ ∀ query_key sv' start max_records,
        self_dict w !! "query_key" = Some query_key →
        ∃ r w'',
          fetch_records sv' start max_records w' = (r, w'')
          ∧ requests w''
            = requests w'
              ++ [EfetchNucleotide start (Py.min max_records 500)
                    (VStr webenv) query_key].
Proof.
  intros [record0 records Ht Hn] Hs Hc Hi Hnz Hw Hq.
  assert (∃ w' out,
            search_taxid sv taxid w = (Ok None, w')
            ∧ self_dict w' = <["webenv" := VStr webenv]> (self_dict w)
            ∧ stdout w' = out ++ ["Error searching TaxID " +:+ taxid +:+ ": 'QueryKey'"])
    as (w' & out & Hrun & Hd & Hout).
  { unfold search_taxid. fold (search_term taxid).
    rewrite Ht, Hs. run_monad. rewrite Hn. run_monad. rewrite Hc. run_monad.
    rewrite Hi. run_monad.
    apply Z.eqb_neq in Hnz. rewrite Hnz. run_monad.
    rewrite Hw. run_monad. rewrite Hq. run_monad.
    eexists _, _. split; [reflexivity|]. cbn [self_dict stdout]. done. }
  exists w', out. do 3 (split; [done|]).
  intros query_key sv' start max_records Hold.
  erewrite fetch_records_session.
  2:{ rewrite Hd. by simplify_map_eq. }
  2:{ rewrite Hd. rewrite lookup_insert_ne by done. exact Hold. }
  cbn zeta. destruct (efetch_nucleotide _ _ _ _ _); by eexists _, _.
Qed.

Lemma sample_unpaired_names : taxonomy_names Edge.service_unpaired "9606" "Homo sapiens".
Proof. by apply sample_taxonomy_names. Qed.

Lemma search_taxid_missing_query_key_overwrites_webenv_witness :
  taxonomy_names Edge.service_unpaired "9606" "Homo sapiens"
  ∧ 7 ≠ 0
  ∧ ∃ w' out,
      search_taxid Edge.service_unpaired "9606" Sample.in_session = (Ok None, w')
      ∧ self_dict w' = <["webenv" := VStr "MCID_2"]> (self_dict Sample.in_session)
      ∧ stdout w' = out ++ ["Error searching TaxID " +:+ "9606" +:+ ": 'QueryKey'"]
      ∧ ∀ query_key sv' start max_records,
          self_dict Sample.in_session !! "query_key" = Some query_key →
          ∃ r w'',
            fetch_records sv' start max_records w' = (r, w'')
            ∧ requests w''
              = requests w'
                ++ [EfetchNucleotide start (Py.min max_records 500)
                      (VStr "MCID_2") query_key].
Proof.
  split; [apply sample_unpaired_names|]. split; [lia|].
  apply (search_taxid_missing_query_key_overwrites_webenv Edge.service_unpaired
           "9606" "Homo sapiens"
           (<["Count" := "7"]> {[ "WebEnv" := "MCID_2" ]}) "7" 7 "MCID_2"
           Sample.in_session).
  - apply sample_unpaired_names.
  - reflexivity.
  - vm_compute. reflexivity.
  - reflexivity.
  - lia.
  - vm_compute. reflexivity.
  - vm_compute. reflexivity.
Defined.

Lemma search_taxid_dict sv taxid w :
  ∃ r w', search_taxid sv taxid w = (Ok r, w')
    ∧ (self_dict w' = self_dict w
       ∨ (∃ webenv, self_dict w' = <["webenv" := VStr webenv]> (self_dict w))
       ∨ session_held w').
Proof.
  destruct (search_dichotomy sv taxid)
    as [(name & n & we & qk & Hok) | [Hzero | Hfail]].
  - exists (Some n), (searched taxid name n we qk w).
    split; [by apply search_taxid_ok|]. right. right.
    unfold session_held, searched. cbn [self_dict].
    repeat split; by simplify_map_eq.
  - destruct (search_taxid_zero sv taxid w Hzero) as [out Heq].
    eexists None, _. split; [exact Heq|]. by left.
  - destruct (search_taxid_fails sv taxid w Hfail)
      as (w' & Heq & _ & _ & _ & [Hd | (results & we & _ & _ & _ & Hd)]).
    + exists None, w'. split; [done|]. by left.
    + exists None, w'. split; [done|]. right. left. eauto.
Qed.

(** X6.  No search ever takes a session away: if the client holds the web
    environment, the query key and the count before [search_taxid] runs, it
    holds all three afterwards, whether the search succeeds, finds nothing or
    fails, and for any behaviour of the service. *)
Theorem search_taxid_keeps_a_held_session sv taxid w :
  session_held w →
  ∃ r w', search_taxid sv taxid w = (Ok r, w') ∧ session_held w'.
Proof.
  intros (Hw & Hq & Hc).
  destruct (search_taxid_dict sv taxid w) as (r & w' & Hrun & Hd).
  exists r, w'. split; [done|].
  destruct Hd as [Hd | [[we Hd] | Hd]]; [| |done];
    unfold session_held; rewrite Hd; [done|].
  repeat split; [by simplify_map_eq | by rewrite lookup_insert_ne..].
Qed.

Lemma sample_full_session_held : session_held Edge.full_session.
Proof. repeat split; eexists; vm_compute; reflexivity. Qed.

Lemma search_taxid_keeps_a_held_session_witness :
  session_held Edge.full_session
  ∧ ∃ r w',
      search_taxid Sample.service_zero "9606" Edge.full_session = (Ok r, w')
      ∧ session_held w'.
Proof.
  split; [apply sample_full_session_held|].
  apply (search_taxid_keeps_a_held_session Sample.service_zero "9606"
           Edge.full_session).
  apply sample_full_session_held.
Defined.

(** ** More on [fetch_records] *)

(** X7.  [fetch_records] never raises, whatever the service does and
    whatever the client holds.  It returns either a string, having made
    exactly one remote call and allocated nothing, or a new empty list,
    having made no remote call.  It never changes an attribute of the
    client, reads the keyboard or writes a file. *)
Theorem fetch_records_never_raises sv start max_records w :
  ∃ v w',
    fetch_records sv start max_records w = (Ok v, w')
    ∧ self_dict w' = self_dict w ∧ stdin w' = stdin w ∧ files w' = files w
    ∧ ((∃ text request, v = VStr text ∧ heap w' = heap w
                        ∧ requests w' = requests w ++ [request])
       ∨ (∃ l, v = VRef l ∧ heap w' !! l = Some []
               ∧ heap w !! l = None ∧ requests w' = requests w)).
Proof.
  destruct (self_dict w !! "webenv") as [webenv|] eqn:Hw.
  - destruct (self_dict w !! "query_key") as [query_key|] eqn:Hq.
    + rewrite (fetch_records_session _ _ _ _ _ _ Hw Hq). cbn zeta.
      destruct (efetch_nucleotide _ _ _ _ _) as [text|e];
        eexists _, _; (split; [reflexivity|]); cbn; repeat split;
        left; eauto.
    + eexists _, _. split; [apply fetch_records_no_session; by right|].
      cbn [self_dict stdin files heap requests]. repeat split.
      right. eexists. split; [done|]. split; [apply lookup_end_0|].
      split; [by apply lookup_ge_None | done].
  - eexists _, _. split; [apply fetch_records_no_session; by left|].
    cbn [self_dict stdin files heap requests]. repeat split.
    right. eexists. split; [done|]. split; [apply lookup_end_0|].
    split; [by apply lookup_ge_None | done].
Qed.

(** X8.  A fetch that follows a successful search sends back to the
    service exactly the web environment and the query key of the search
    answer; over the two calls the client makes three remote calls, in the
    order taxonomy lookup, search, fetch, and the fetch returns the text of
    the answer, or the empty string if the service raises. *)
Theorem search_then_fetch_uses_the_answered_tokens
    sv taxid organism_name count webenv query_key start max_records w :
  search_succeeds sv taxid organism_name count webenv query_key →
  ∃ w',
    (search_taxid sv taxid ;; fetch_records sv start max_records) w
    = (Ok (VStr (fetched_text
                   (efetch_nucleotide sv start (Py.min max_records 500)
                      (VStr webenv) (VStr query_key)))), w')
    ∧ requests w'
      = requests w
        ++ [EfetchTaxonomy taxid;
            EsearchNucleotide ("txid" +:+ taxid +:+ "[Organism]");
            EfetchNucleotide start (Py.min max_records 500)
              (VStr webenv) (VStr query_key)].
Proof.
  intros Hok. rewrite run_bind, (search_taxid_ok _ _ _ _ _ _ _ Hok).
  rewrite (fetch_records_session _ _ _ _ (VStr webenv) (VStr query_key))
    by first [apply searched_webenv | apply searched_query_key].
  cbn zeta.
  destruct (efetch_nucleotide _ _ _ _ _); eexists; (split; [reflexivity|]);
    norm_world; by rewrite <- app_assoc.
Qed.

Lemma search_then_fetch_uses_the_answered_tokens_witness :
  search_succeeds Sample.service "9606" "Homo sapiens" 3 "MCID_1" "1"
  ∧ ∃ w',
      (search_taxid Sample.service "9606" ;; fetch_records Sample.service 0 5)
        (Sample.start [])
      = (Ok (VStr (fetched_text
                     (efetch_nucleotide Sample.service 0 (Py.min 5 500)
                        (VStr "MCID_1") (VStr "1")))), w')
      ∧ requests w'
        = requests (Sample.start [])
          ++ [EfetchTaxonomy "9606";
              EsearchNucleotide ("txid" +:+ "9606" +:+ "[Organism]");
              EfetchNucleotide 0 (Py.min 5 500) (VStr "MCID_1") (VStr "1")].
Proof.
  split; [apply sample_search_succeeds|].
  apply (search_then_fetch_uses_the_answered_tokens Sample.service "9606"
           "Homo sapiens" 3 "MCID_1" "1" 0 5 (Sample.start [])).
  apply sample_search_succeeds.
Defined.

(** X9.  Constructing the client stores the two credentials and nothing
    else; on a client that held no session attribute before, a fetch right
    after the construction is turned away by the guard: it returns a list
    that is new (no list was at its place before, and every list that was
    there is unchanged) and empty, and makes no remote call. *)
Theorem fetch_right_after_init_is_refused sv email api_key start max_records w :
  session_absent w →
  ∃ l w',
    (NCBIRetriever_init email api_key ;; fetch_records sv start max_records) w
    = (Ok (VRef l), w')
    ∧ heap w !! l = None
    ∧ heap w' !! l = Some []
    ∧ (∀ l', (l' < length (heap w))%nat → heap w' !! l' = heap w !! l')
    ∧ requests w' = requests w
    ∧ self_dict w' = <["api_key" := VStr api_key]>
                       (<["email" := VStr email]> (self_dict w)).
Proof.
  intros (Hw & Hq & Hc).
  rewrite run_bind. unfold NCBIRetriever_init, setattr. rewrite run_bind.
  norm_world.
  rewrite fetch_records_no_session.
  2:{ left. cbn [self_dict]. by rewrite !lookup_insert_ne. }
  eexists _, _. split; [reflexivity|]. cbn [heap requests self_dict].
  split; [by apply lookup_ge_None|].
  split; [apply lookup_end_0|]. split; [|done].
  intros l' Hl'. by apply lookup_app_l.
Qed.

Lemma fetch_right_after_init_is_refused_witness :
  session_absent (Sample.start [])
  ∧ ∃ l w',
      (NCBIRetriever_init "a@b.org" "key" ;; fetch_records Sample.service 0 5)
        (Sample.start [])
      = (Ok (VRef l), w')
      ∧ heap (Sample.start []) !! l = None
      ∧ heap w' !! l = Some []
      ∧ (∀ l', (l' < length (heap (Sample.start [])))%nat →
               heap w' !! l' = heap (Sample.start []) !! l')
      ∧ requests w' = requests (Sample.start [])
      ∧ self_dict w' = <["api_key" := VStr "key"]>
                         (<["email" := VStr "a@b.org"]> (self_dict (Sample.start []))).
Proof.
  split; [repeat split|].
  apply (fetch_right_after_init_is_refused Sample.service "a@b.org" "key" 0 5
           (Sample.start [])).
  repeat split.
Defined.

(** ** More on the filter *)

Lemma filter_in_range_twice min_len max_len (rs : list SeqRecord.t) :
  filter (in_range min_len max_len) (filter (in_range min_len max_len) rs)
  = filter (in_range min_len max_len) rs.
Proof.
  induction rs as [|r rs IH]; [done|].
  rewrite (filter_cons _ r rs). case_decide; [|done].
  rewrite filter_cons_True by done. by f_equal.
Qed.

Lemma filter_in_range_inverted a b (rs : list SeqRecord.t) :
  b < a → filter (in_range (Some a) (Some b)) rs = [].
Proof.
  intros Hab. induction rs as [|r rs IH]; [done|].
  rewrite filter_cons_False; [done|].
  unfold in_range, at_least, at_most. lia.
Qed.

Lemma filter_in_range_nonpositive m (rs : list SeqRecord.t) :
  m ≤ 0 → filter (in_range (Some m) None) rs = rs.
Proof.
  intros Hm. induction rs as [|r rs IH]; [done|].
  rewrite filter_cons_True; [by f_equal|].
  unfold in_range, at_least, at_most, len_seq. lia.
Qed.

(** X10.  Filtering is idempotent: when the records the loop kept are run
    through the loop again with the same bounds, into another list, every
    one of them is kept, in the same order, and the first list is not
    touched. *)
Theorem filter_records_twice_keeps_the_same min_len max_len l1 l2 rs w :
  heap w !! l1 = Some [] →
  heap w !! l2 = Some [] →
  l1 ≠ l2 →
  ∃ kept w1 w2,
    filter_records min_len max_len l1 (rs, None) w = (Ok tt, w1)
    ∧ heap w1 !! l1 = Some (VRecord <$> kept)
    ∧ filter_records min_len max_len l2 (kept, None) w1 = (Ok tt, w2)
    ∧ heap w2 !! l2 = Some (VRecord <$> kept)
    ∧ heap w2 !! l1 = Some (VRecord <$> kept).
Proof.
  intros H1 H2 Hne.
  exists (filter (in_range min_len max_len) rs). eexists _, _.
  split; [by eapply filter_records_run|].
  assert (l1 < length (heap w))%nat as Hlt1 by (by eapply lookup_lt_Some).
  assert (l2 < length (heap w))%nat as Hlt2 by (by eapply lookup_lt_Some).
  split.
  { cbn [heap set_heap]. rewrite app_nil_l. by apply list_lookup_insert_eq. }
  split.
  { eapply filter_records_run. cbn [heap set_heap].
    by rewrite list_lookup_insert_ne. }
  cbn [heap set_heap]. rewrite !app_nil_l, filter_in_range_twice. split.
  - apply list_lookup_insert_eq. by rewrite length_insert.
  - rewrite list_lookup_insert_ne by done. by apply list_lookup_insert_eq.
Qed.

Lemma filter_records_twice_keeps_the_same_witness :
  heap (mkWorld [[]; []] ∅ [] [] [] []) !! 0%nat = Some []
  ∧ heap (mkWorld [[]; []] ∅ [] [] [] []) !! 1%nat = Some []
  ∧ ∃ kept w1 w2,
      filter_records (Some 4) (Some 9) 0%nat
        ([Sample.rec_a; Sample.rec_b; Sample.rec_c], None)
        (mkWorld [[]; []] ∅ [] [] [] []) = (Ok tt, w1)
      ∧ heap w1 !! 0%nat = Some (VRecord <$> kept)
      ∧ filter_records (Some 4) (Some 9) 1%nat (kept, None) w1 = (Ok tt, w2)
      ∧ heap w2 !! 1%nat = Some (VRecord <$> kept)
      ∧ heap w2 !! 0%nat = Some (VRecord <$> kept).
Proof.
  split; [reflexivity|]. split; [reflexivity|].
  apply (filter_records_twice_keeps_the_same (Some 4) (Some 9) 0%nat 1%nat
           [Sample.rec_a; Sample.rec_b; Sample.rec_c]
           (mkWorld [[]; []] ∅ [] [] [] [])).
  - reflexivity.
  - reflexivity.
  - lia.
Defined.

(** X11.  Bounds typed the wrong way round are not refused: with a minimum
    above the maximum the loop keeps no record at all and leaves every list
    as it was. *)
Theorem filter_records_inverted_bounds_keep_nothing a b l rs oe w xs :
  b < a →
  heap w !! l = Some xs →
  ∃ r w',
    filter_records (Some a) (Some b) l (rs, oe) w = (r, w')
    ∧ heap w' = heap w
    ∧ (oe = None → r = Ok tt).
Proof.
  intros Hab Hl. eexists _, _.
  split; [by eapply filter_records_run|].
  cbn [heap set_heap]. rewrite filter_in_range_inverted by done.
  cbn [fmap list_fmap]. rewrite app_nil_r. split; [by apply list_insert_id|].
  by intros ->.
Qed.

Lemma filter_records_inverted_bounds_keep_nothing_witness :
  5 < 100
  ∧ heap Edge.two_lists !! 1%nat = Some []
  ∧ ∃ r w',
      filter_records (Some 100) (Some 5) 1%nat
        ([Sample.rec_a; Sample.rec_b], None) Edge.two_lists = (r, w')
      ∧ heap w' = heap Edge.two_lists
      ∧ (@None exn = None → r = Ok tt).
Proof.
  split; [lia|]. split; [reflexivity|].
  apply (filter_records_inverted_bounds_keep_nothing 100 5 1%nat
           [Sample.rec_a; Sample.rec_b] None Edge.two_lists []).
  - lia.
  - reflexivity.
Defined.

(** X12.  A minimum of zero or below, with no maximum, has no effect: a
    sequence length is never negative, so every record is kept. *)
Theorem filter_records_nonpositive_minimum_keeps_all m l rs w xs :
  m ≤ 0 →
  heap w !! l = Some xs →
  ∃ w',
    filter_records (Some m) None l (rs, None) w = (Ok tt, w')
    ∧ heap w' !! l = Some (xs ++ (VRecord <$> rs)).
Proof.
  intros Hm Hl. eexists.
  split; [by eapply filter_records_run|].
  cbn [heap set_heap]. rewrite filter_in_range_nonpositive by done.
  apply list_lookup_insert_eq. by eapply lookup_lt_Some.
Qed.

Lemma filter_records_nonpositive_minimum_keeps_all_witness :
  -1 ≤ 0
  ∧ heap Edge.two_lists !! 1%nat = Some []
  ∧ ∃ w',
      filter_records (Some (-1)) None 1%nat
        ([Sample.rec_a; Sample.rec_b], None) Edge.two_lists = (Ok tt, w')
      ∧ heap w' !! 1%nat = Some ([] ++ (VRecord <$> [Sample.rec_a; Sample.rec_b])).
Proof.
  split; [lia|]. split; [reflexivity|].
  apply (filter_records_nonpositive_minimum_keeps_all (-1) 1%nat
           [Sample.rec_a; Sample.rec_b] Edge.two_lists []).
  - lia.
  - reflexivity.
Defined.

(** ** More on the report generators *)

Lemma sorted_of_sorted (rs : list SeqRecord.t) :
  StronglySorted (key_le len_seq) rs → Py.sorted len_seq rs = rs.
Proof. intros Hs. symmetry. by apply sorted_unique. Qed.

(** X13.  When the records are already in ascending order of sequence
    length, [generate_chart] plots them in the order of the list. *)
Theorem generate_chart_keeps_an_ascending_order records taxid w rs :
  heap w !! records = Some (VRecord <$> rs) →
  StronglySorted (key_le len_seq) rs →
  ∃ w' fig,
    generate_chart records taxid w = (Ok tt, w')
    ∧ files w' = files w ++ [PngFile ("taxid_" +:+ taxid +:+ "_chart.png") fig]
    ∧ fig_x fig = VStr ∘ SeqRecord.id <$> rs
    ∧ fig_y fig = VInt ∘ len_seq <$> rs.
Proof.
  intros Hrec Hs. eexists _, (chart_figure rs).
  split; [by apply generate_chart_run|].
  unfold chart_figure. cbn [files fig_x fig_y].
  by rewrite sorted_of_sorted.
Qed.

Lemma sample_ascending :
  StronglySorted (key_le len_seq) [Sample.rec_b; Sample.rec_c; Sample.rec_a].
Proof.
  repeat constructor; unfold key_le; vm_compute; discriminate.
Qed.

Lemma generate_chart_keeps_an_ascending_order_witness :
  heap Edge.ascending !! 0%nat
  = Some (VRecord <$> [Sample.rec_b; Sample.rec_c; Sample.rec_a])
  ∧ ∃ w' fig,
      generate_chart 0%nat "9606" Edge.ascending = (Ok tt, w')
      ∧ files w' = files Edge.ascending
                   ++ [PngFile ("taxid_" +:+ "9606" +:+ "_chart.png") fig]
      ∧ fig_x fig = VStr ∘ SeqRecord.id <$> [Sample.rec_b; Sample.rec_c; Sample.rec_a]
      ∧ fig_y fig = VInt ∘ len_seq <$> [Sample.rec_b; Sample.rec_c; Sample.rec_a].
Proof.
  split; [reflexivity|].
  apply (generate_chart_keeps_an_ascending_order 0%nat "9606" Edge.ascending
           [Sample.rec_b; Sample.rec_c; Sample.rec_a]).
  - reflexivity.
  - apply sample_ascending.
Defined.

(** X14.  The table and the chart made from the same list, one after the
    other as [main] does, show the same records: both files are written, the
    table first; the identifiers on the x axis are a rearrangement of the
    accession number column and the lengths on the y axis a rearrangement of
    the sequence length column; each generator prints one line naming its
    file, and neither makes a remote call or changes the list it was
    given. *)
Theorem table_and_chart_show_the_same_records records taxid w rs :
  heap w !! records = Some (VRecord <$> rs) →
  ∃ w' df fig accessions lengths,
    (generate_csv records taxid ;; generate_chart records taxid) w = (Ok tt, w')
    ∧ files w' = files w ++ [CsvFile ("taxid_" +:+ taxid +:+ "_attributes.csv") df;
                             PngFile ("taxid_" +:+ taxid +:+ "_chart.png") fig]
    ∧ column "accession number" (df_columns df) = Some accessions
    ∧ column "sequence length" (df_columns df) = Some lengths
    ∧ fig_x fig ≡ₚ accessions
    ∧ fig_y fig ≡ₚ lengths
    ∧ stdout w'
      = stdout w
        ++ ["Saved csv report to " +:+ ("taxid_" +:+ taxid +:+ "_attributes.csv") +:+ ".";
            "Saved chart to " +:+ ("taxid_" +:+ taxid +:+ "_chart.png") +:+ "."]
    ∧ requests w' = requests w
    ∧ heap w' !! records = Some (VRecord <$> rs).
Proof.
  intros Hrec.
  eexists _, (csv_frame (length (heap w)) rs), (chart_figure rs), _, _.
  split.
  { rewrite run_bind, (generate_csv_run _ _ _ _ Hrec).
    apply generate_chart_run. cbn [heap]. by apply lookup_app_l_Some. }
  cbn [files stdout requests heap].
  split; [by rewrite <- app_assoc|].
  do 2 (split; [reflexivity|]).
  unfold chart_figure. cbn [fig_x fig_y].
  split; [by rewrite sorted_perm|]. split; [by rewrite sorted_perm|].
  split; [by rewrite <- app_assoc|]. split; [done|].
  by do 2 apply lookup_app_l_Some.
Qed.

Lemma table_and_chart_show_the_same_records_witness :
  heap Sample.with_records !! 0%nat
  = Some (VRecord <$> [Sample.rec_a; Sample.rec_b; Sample.rec_c])
  ∧ ∃ w' df fig accessions lengths,
      (generate_csv 0%nat "9606" ;; generate_chart 0%nat "9606") Sample.with_records
      = (Ok tt, w')
      ∧ files w' = files Sample.with_records
                   ++ [CsvFile ("taxid_" +:+ "9606" +:+ "_attributes.csv") df;
                       PngFile ("taxid_" +:+ "9606" +:+ "_chart.png") fig]
      ∧ column "accession number" (df_columns df) = Some accessions
      ∧ column "sequence length" (df_columns df) = Some lengths
      ∧ fig_x fig ≡ₚ accessions
      ∧ fig_y fig ≡ₚ lengths
      ∧ stdout w'
        = stdout Sample.with_records
          ++ ["Saved csv report to " +:+ ("taxid_" +:+ "9606" +:+ "_attributes.csv") +:+ ".";
              "Saved chart to " +:+ ("taxid_" +:+ "9606" +:+ "_chart.png") +:+ "."]
      ∧ requests w' = requests Sample.with_records
      ∧ heap w' !! 0%nat = Some (VRecord <$> [Sample.rec_a; Sample.rec_b; Sample.rec_c]).
Proof.
  split; [reflexivity|].
  apply (table_and_chart_show_the_same_records 0%nat "9606" Sample.with_records
           [Sample.rec_a; Sample.rec_b; Sample.rec_c]).
  reflexivity.
Defined.

(** ** More on [main] *)

Lemma main_parser_raises sv w line1 line2 rest organism_name count webenv query_key
    rs e :
  stdin w = line1 :: line2 :: rest →
  search_succeeds sv "9606" organism_name count webenv query_key →
  SeqIO_parse sv
    (fetched_text (efetch_nucleotide sv 0 5 (VStr webenv) (VStr query_key)))
  = (rs, Some e) →
  ∃ w', main sv w = (Raise e, w')
        ∧ files w' = files w
        ∧ requests w' = requests w ++
            [EfetchTaxonomy "9606"; EsearchNucleotide (search_term "9606");
             EfetchNucleotide 0 5 (VStr webenv) (VStr query_key)].
Proof.
  intros Hin Hok Hparse. unfold main.
  destruct w as [h sd si so rq fl]. cbn [stdin heap files requests] in *. subst si.
  rewrite run_bind. unfold NCBIRetriever_init, setattr. rewrite run_bind. norm_world.
  rewrite run_bind. unfold input at 1. norm_world.
  rewrite run_bind. unfold input at 1. norm_world.
  rewrite run_bind, (search_taxid_ok _ _ _ _ _ _ _ Hok). norm_world.
  assert (falsy (Some count) = false) as ->.
  { destruct Hok. by apply Z.eqb_neq. }
  rewrite run_bind. unfold print at 1. norm_world.
  rewrite run_bind.
  erewrite fetch_records_session by (norm_world; by simplify_map_eq).
  norm_world. change (Py.min 5 500) with 5.
  destruct (efetch_nucleotide sv 0 5 (VStr webenv) (VStr query_key)) as [text|e'];
    cbn [fetched_text] in *;
    (rewrite run_bind; cbn [StringIO mret M_ret]; rewrite Hparse;
     rewrite run_bind; unfold new_list at 1; norm_world;
     rewrite run_bind;
     erewrite filter_records_run by (norm_world; apply lookup_end_0);
     norm_world;
     eexists; split; [reflexivity|]; norm_world;
     by rewrite <- !app_assoc).
Qed.

(** X15.  For any two lines typed as bounds, when the search succeeds and
    the parser reads the fetched text to its end, [main] returns at its last
    statement.  It asks the service for five records from offset zero with
    the tokens of the search, and for nothing else after the search; the
    table and the chart are made from the records whose length is within the
    typed bounds, and the sample file holds the whole fetched text, filtered
    or not.  The three files are written in the order table, chart, sample,
    and both input lines are consumed. *)
Theorem main_reports_the_kept_records_and_saves_the_raw_text
    sv w line1 line2 rest organism_name count webenv query_key rs :
  stdin w = line1 :: line2 :: rest →
  search_succeeds sv "9606" organism_name count webenv query_key →
  SeqIO_parse sv
    (fetched_text (efetch_nucleotide sv 0 5 (VStr webenv) (VStr query_key)))
  = (rs, None) →
  ∃ w' kept,
    main sv w = (Ok SAVED, w')
    ∧ kept = filter (in_range (int_or_None (Py.strip line1))
                              (int_or_None (Py.strip line2))) rs
    ∧ files w'
      = files w
        ++ [CsvFile "taxid_9606_attributes.csv" (csv_frame (S (length (heap w))) kept);
            PngFile "taxid_9606_chart.png" (chart_figure kept);
            TextFile "taxid_9606_sample.gb"
              (fetched_text
                 (efetch_nucleotide sv 0 5 (VStr webenv) (VStr query_key)))]
    ∧ requests w'
      = requests w
        ++ [EfetchTaxonomy "9606"; EsearchNucleotide "txid9606[Organism]";
            EfetchNucleotide 0 5 (VStr webenv) (VStr query_key)]
    ∧ heap w' !! length (heap w) = Some (VRecord <$> kept)
    ∧ stdin w' = rest.
Proof.
  intros Hin Hok Hparse.
  destruct (main_saved sv w line1 line2 rest _ _ _ _ rs Hin Hok Hparse)
    as (w' & Hrun & Hfiles & Hreq & Hheap & Hrest).
  by eexists w', _.
Qed.

Lemma main_reports_the_kept_records_and_saves_the_raw_text_witness :
  stdin (Sample.start ["4"; "lots"]) = [codepoints "4"; codepoints "lots"]
  ∧ search_succeeds Sample.service "9606" "Homo sapiens" 3 "MCID_1" "1"
  ∧ ∃ w' kept,
      main Sample.service (Sample.start ["4"; "lots"]) = (Ok SAVED, w')
      ∧ kept = filter (in_range (int_or_None (Py.strip (codepoints "4")))
                                (int_or_None (Py.strip (codepoints "lots"))))
                 [Sample.rec_a; Sample.rec_b; Sample.rec_c]
      ∧ files w'
        = files (Sample.start ["4"; "lots"])
          ++ [CsvFile "taxid_9606_attributes.csv"
                (csv_frame (S (length (heap (Sample.start ["4"; "lots"])))) kept);
              PngFile "taxid_9606_chart.png" (chart_figure kept);
              TextFile "taxid_9606_sample.gb"
                (fetched_text
                   (efetch_nucleotide Sample.service 0 5 (VStr "MCID_1") (VStr "1")))]
      ∧ requests w'
        = requests (Sample.start ["4"; "lots"])
          ++ [EfetchTaxonomy "9606"; EsearchNucleotide "txid9606[Organism]";
              EfetchNucleotide 0 5 (VStr "MCID_1") (VStr "1")]
      ∧ heap w' !! length (heap (Sample.start ["4"; "lots"]))
        = Some (VRecord <$> kept)
      ∧ stdin w' = [].
Proof.
  split; [reflexivity|]. split; [apply sample_search_succeeds|].
  apply (main_reports_the_kept_records_and_saves_the_raw_text Sample.service
           (Sample.start ["4"; "lots"]) (codepoints "4") (codepoints "lots") []
           "Homo sapiens" 3 "MCID_1" "1"
           [Sample.rec_a; Sample.rec_b; Sample.rec_c]).
  - reflexivity.
  - apply sample_search_succeeds.
  - reflexivity.
Defined.

(** X16.  When fewer than two lines can be read from the keyboard, [main]
    ends with the end-of-file error of [input]: the search is never started,
    so no remote call is made, and no file is written. *)
Theorem main_without_input_raises_before_searching sv w :
  (length (stdin w) < 2)%nat →
  ∃ w',
    main sv w = (Raise (EOFError "EOF when reading a line"), w')
    ∧ requests w' = requests w
    ∧ files w' = files w
    ∧ heap w' = heap w.
Proof.
  intros Hlen. unfold main.
  destruct w as [h sd si so rq fl]. cbn [stdin heap files requests] in *.
  rewrite run_bind. unfold NCBIRetriever_init, setattr. rewrite run_bind. norm_world.
  rewrite run_bind. unfold input at 1. norm_world.
  destruct si as [|line1 [|line2 rest]]; [| |simpl in Hlen; lia].
  - by eexists.
  - rewrite run_bind. unfold input at 1. norm_world. by eexists.
Qed.

Lemma main_without_input_raises_before_searching_witness :
  (length (stdin (Sample.start ["100"])) < 2)%nat
  ∧ ∃ w',
      main Sample.service (Sample.start ["100"])
      = (Raise (EOFError "EOF when reading a line"), w')
      ∧ requests w' = requests (Sample.start ["100"])
      ∧ files w' = files (Sample.start ["100"])
      ∧ heap w' = heap (Sample.start ["100"]).
Proof.
  split; [simpl; lia|].
  apply (main_without_input_raises_before_searching Sample.service
           (Sample.start ["100"])).
  simpl. lia.
Defined.

(** X17.  A parse error is not caught: when the search succeeds and the
    GenBank parser raises while the fetched text is read, also after it
    yielded entries, [main] ends with that exception.  The three remote
    calls have been made by then, but none of the three files is written. *)
Theorem main_parse_error_writes_nothing
    sv w line1 line2 rest organism_name count webenv query_key rs e :
  stdin w = line1 :: line2 :: rest →
  search_succeeds sv "9606" organism_name count webenv query_key →
  SeqIO_parse sv
    (fetched_text (efetch_nucleotide sv 0 5 (VStr webenv) (VStr query_key)))
  = (rs, Some e) →
  ∃ w',
    main sv w = (Raise e, w')
    ∧ files w' = files w
    ∧ requests w'
      = requests w
        ++ [EfetchTaxonomy "9606"; EsearchNucleotide "txid9606[Organism]";
            EfetchNucleotide 0 5 (VStr webenv) (VStr query_key)].
Proof.
  intros Hin Hok Hparse.
  destruct (main_parser_raises sv w line1 line2 rest _ _ _ _ rs e Hin Hok Hparse)
    as (w' & Hrun & Hfiles & Hreq).
  by exists w'.
Qed.

Lemma sample_search_succeeds_truncated :
  search_succeeds Edge.service_truncated "9606" "Homo sapiens" 3 "MCID_1" "1".
Proof. econstructor; try reflexivity. done. Qed.

Lemma main_parse_error_writes_nothing_witness :
  stdin (Sample.start [""; ""]) = [codepoints ""; codepoints ""]
  ∧ search_succeeds Edge.service_truncated "9606" "Homo sapiens" 3 "MCID_1" "1"
  ∧ ∃ w',
      main Edge.service_truncated (Sample.start [""; ""])
      = (Raise (LibraryError "ValueError" "Premature end of file"), w')
      ∧ files w' = files (Sample.start [""; ""])
      ∧ requests w'
        = requests (Sample.start [""; ""])
          ++ [EfetchTaxonomy "9606"; EsearchNucleotide "txid9606[Organism]";
              EfetchNucleotide 0 5 (VStr "MCID_1") (VStr "1")].
Proof.
  split; [reflexivity|]. split; [apply sample_search_succeeds_truncated|].
  apply (main_parse_error_writes_nothing Edge.service_truncated
           (Sample.start [""; ""]) (codepoints "") (codepoints "") []
           "Homo sapiens" 3 "MCID_1" "1" [Sample.rec_a]
           (LibraryError "ValueError" "Premature end of file")).
  - reflexivity.
  - apply sample_search_succeeds_truncated.
  - reflexivity.
Defined.

(** ** Which inputs are read as a bound *)

(** X19.  A line typed at one of the two prompts becomes a bound exactly
    when, white space at its ends apart, it is a decimal integer literal of
    at most 4300 digits: an optional ASCII sign, then decimal digits of any
    script, with single underscores allowed between digits.  Every other
    line, the empty one included, becomes [None]. *)
Theorem bound_is_read_iff_numeric line :
  (is_Some (int_or_None (Py.strip line)) ↔ numeric line)
  ∧ (int_or_None (Py.strip line) = None ↔ ¬ numeric line).
Proof.
  assert (is_Some (int_or_None (Py.strip line)) ↔ numeric line) as Hiff.
  { split.
    - intros [n Hn]. by eapply int_strip_numeric.
    - intros Hn. destruct (numeric_int_strip line Hn) as [n ->]. by eexists. }
  split; [done|].
  rewrite <- Hiff. split.
  - intros -> [? ?]. done.
  - intros Hn. destruct (int_or_None (Py.strip line)); [|done].
    destruct Hn. by eexists.
Qed.

(** ** Names of the files *)

Lemma chars_append a b :
  list_ascii_of_string (a +:+ b) = list_ascii_of_string a ++ list_ascii_of_string b.
Proof. induction a as [|c a IH]; simpl; [done | by rewrite IH]. Qed.

Lemma chars_inj a b : list_ascii_of_string a = list_ascii_of_string b → a = b.
Proof.
  intros H. rewrite <- (string_of_list_ascii_of_string a),
    <- (string_of_list_ascii_of_string b). by rewrite H.
Qed.

Lemma append_cancel_r a b s : a +:+ s = b +:+ s → a = b.
Proof.
  intros H. apply chars_inj. apply (f_equal list_ascii_of_string) in H.
  rewrite !chars_append in H. by apply app_inv_tail in H.
Qed.

(** X20.  The names of the files are built from the identifier so that
    they never collide: for one identifier the table, the chart and the
    sample have three different names, and two different identifiers give
    different names for the table and for the chart. *)
Theorem output_paths_do_not_collide taxid taxid' :
  "taxid_" +:+ taxid +:+ "_attributes.csv" ≠ "taxid_" +:+ taxid +:+ "_chart.png"
  ∧ "taxid_" +:+ taxid +:+ "_attributes.csv" ≠ "taxid_" +:+ taxid +:+ "_sample.gb"
  ∧ "taxid_" +:+ taxid +:+ "_chart.png" ≠ "taxid_" +:+ taxid +:+ "_sample.gb"
  ∧ (csv_path taxid = csv_path taxid' → taxid = taxid')
  ∧ (chart_path taxid = chart_path taxid' → taxid = taxid').
Proof.
  repeat split.
  - intros H. by do 2 apply (inj (String.append _)) in H.
  - intros H. by do 2 apply (inj (String.append _)) in H.
  - intros H. by do 2 apply (inj (String.append _)) in H.
  - unfold csv_path. intros H. apply (inj (String.append _)) in H.
    by apply append_cancel_r in H.
  - unfold chart_path. intros H. apply (inj (String.append _)) in H.
    by apply append_cancel_r in H.
Qed.

(** ** A fetch that fails, and the next one *)

(** X21.  A fetch that fails does not cost the session.  With a session
    held, when the service raises on a fetch, [fetch_records] prints "Error
    fetching records: " with the text of the exception and returns normally;
    a second fetch is then sent with the same web environment and query key,
    and returns what the service answers this time.  Both requests carry the
    capped batch size of their call. *)
Theorem fetch_can_be_retried_after_a_failure
    sv sv' start max_records start' max_records' w webenv query_key e :
  self_dict w !! "webenv" = Some webenv →
  self_dict w !! "query_key" = Some query_key →
  efetch_nucleotide sv start (Py.min max_records 500) webenv query_key = Raise e →
  ∃ w' out,
    (fetch_records sv start max_records ;; fetch_records sv' start' max_records') w
    = (Ok (VStr (fetched_text
                   (efetch_nucleotide sv' start' (Py.min max_records' 500)
                      webenv query_key))), w')
    ∧ requests w'
      = requests w
        ++ [EfetchNucleotide start (Py.min max_records 500) webenv query_key;
            EfetchNucleotide start' (Py.min max_records' 500) webenv query_key]
    ∧ stdout w' = stdout w ++ ("Error fetching records: " +:+ str_exn e) :: out
    ∧ self_dict w' = self_dict w.
Proof.
  intros Hw Hq Hfetch.
  rewrite run_bind, (fetch_records_session _ _ _ _ _ _ Hw Hq). cbn zeta.
  rewrite Hfetch.
  rewrite (fetch_records_session _ _ _ _ webenv query_key) by done.
  cbn zeta.
  destruct (efetch_nucleotide sv' _ _ _ _); eexists _, _;
    (split; [reflexivity|]); norm_world; rewrite <- !app_assoc; done.
Qed.

Lemma fetch_can_be_retried_after_a_failure_witness :
  self_dict Sample.in_session !! "webenv" = Some (VStr "MCID_1")
  ∧ self_dict Sample.in_session !! "query_key" = Some (VStr "1")
  ∧ ∃ w' out,
      (fetch_records Sample.service_down 0 1000 ;; fetch_records Sample.service 0 5)
        Sample.in_session
      = (Ok (VStr (fetched_text
                     (efetch_nucleotide Sample.service 0 (Py.min 5 500)
                        (VStr "MCID_1") (VStr "1")))), w')
      ∧ requests w'
        = requests Sample.in_session
          ++ [EfetchNucleotide 0 (Py.min 1000 500) (VStr "MCID_1") (VStr "1");
              EfetchNucleotide 0 (Py.min 5 500) (VStr "MCID_1") (VStr "1")]
      ∧ stdout w'
        = stdout Sample.in_session
          ++ ("Error fetching records: "
              +:+ str_exn (LibraryError "HTTPError" "HTTP Error 502: Bad Gateway"))
             :: out
      ∧ self_dict w' = self_dict Sample.in_session.
Proof.
  split; [vm_compute; reflexivity|]. split; [vm_compute; reflexivity|].
  apply (fetch_can_be_retried_after_a_failure Sample.service_down Sample.service
           0 1000 0 5 Sample.in_session (VStr "MCID_1") (VStr "1")
           (LibraryError "HTTPError" "HTTP Error 502: Bad Gateway"));
    vm_compute; reflexivity.
Defined.
